(** * PhoneBook service: validators and request handlers of [app.py]

    The two validators are regular-expression matches ([re.match] on a
    pattern written between [^] and [$]); the four handlers read and write
    two tables, [phonebook] and [audit_log].

    Strings are sequences of characters with code points 0..255
    ([Ascii.ascii]); on that range Python's [\d] is ['0'..'9'], [\s] is
    the set listed in [is_space], and [.] is every character but the line
    feed.  Module [Str] runs the same patterns on sequences of arbitrary
    code points, with the classes [\d] and [\s] of the character database
    as parameters; on code points 0..255 the two agree. *)

From Stdlib Require Import List Bool Arith Lia Ascii String ZArith.
Import ListNotations.

Local Open Scope char_scope.
Local Open Scope list_scope.

(** ** Characters *)

Definition chars := list ascii.

Definition code (c : ascii) : nat := nat_of_ascii c.

Definition in_range (lo hi c : ascii) : bool :=
  Nat.leb (code lo) (code c) && Nat.leb (code c) (code hi).

(** [\d] on code points below 256. *)
Definition is_digit (c : ascii) : bool := in_range "0" "9" c.

(** [\s] on code points below 256: TAB, LF, VT, FF, CR, FS, GS, RS, US,
    space, NEL (0x85) and NBSP (0xA0). *)
Definition is_space (c : ascii) : bool :=
  let n := code c in
  (Nat.leb 9 n && Nat.leb n 13) || (Nat.leb 28 n && Nat.leb n 32)
  || Nat.eqb n 133 || Nat.eqb n 160.

Definition newline : ascii := "010".

(** ** Patterns *)

(** The members of a bracketed set such as [[\sA-Za-z]]. *)
Inductive set_item : Type :=
| SChar (c : ascii)
| SRange (lo hi : ascii)
| SSpace
| SDigit.

(** What matches one character. *)
Inductive atom : Type :=
| Lit (c : ascii)
| Dot
| Digit
| Space
| OneOf (items : list set_item).

Inductive re : Type :=
| Bol                                   (* ^ *)
| Eol                                   (* $ *)
| Chr (a : atom)
| Cat (r1 r2 : re)
| Alt (r1 r2 : re)
| Rep (lo : nat) (hi : option nat) (r : re)   (* r{lo,hi}, greedy *)
| Look (r : re)                         (* (?=r) *)
| NLook (r : re).                       (* (?!r) *)

Definition item_matches (i : set_item) (c : ascii) : bool :=
  match i with
  | SChar d => Ascii.eqb d c
  | SRange lo hi => in_range lo hi c
  | SSpace => is_space c
  | SDigit => is_digit c
  end.

Definition atom_matches (a : atom) (c : ascii) : bool :=
  match a with
  | Lit d => Ascii.eqb d c
  | Dot => negb (Ascii.eqb c newline)
  | Digit => is_digit c
  | Space => is_space c
  | OneOf items => existsb (fun i => item_matches i c) items
  end.

(** ** The backtracking matcher

    [k] is what remains to be matched after the current node; a node
    passes every way it can match to [k], greedy choice first. *)

Definition matcher := chars -> (chars -> bool) -> bool.

Fixpoint rep_exact (body : matcher) (n : nat) : matcher :=
  fun s k =>
    match n with
    | O => k s
    | S n' => body s (fun s' => rep_exact body n' s' k)
    end.

(** Up to [n] further iterations; one that consumes nothing is not
    repeated. *)
Fixpoint rep_upto (body : matcher) (n : nat) : matcher :=
  fun s k =>
    match n with
    | O => k s
    | S n' =>
        body s (fun s' => Nat.ltb (List.length s') (List.length s) && rep_upto body n' s' k)
        || k s
    end.

(** [$] without MULTILINE: at the end, or before a final line feed. *)
Definition at_eol (s : chars) : bool :=
  match s with
  | [] => true
  | [c] => Ascii.eqb c newline
  | _ => false
  end.

Section Match.

(** Length of the whole subject, so that [^] can tell position 0. *)
Variable total : nat.

Fixpoint m (r : re) : matcher :=
  fun s k =>
    match r with
    | Bol => Nat.eqb (List.length s) total && k s
    | Eol => at_eol s && k s
    | Chr a =>
        match s with
        | c :: s' => atom_matches a c && k s'
        | [] => false
        end
    | Cat r1 r2 => m r1 s (fun s' => m r2 s' k)
    | Alt r1 r2 => m r1 s k || m r2 s k
    | Rep lo hi r0 =>
        rep_exact (m r0) lo s
          (fun s' =>
             rep_upto (m r0)
               (match hi with Some h => h - lo | None => List.length s' end)
               s' k)
    | Look r0 => m r0 s (fun _ => true) && k s
    | NLook r0 => negb (m r0 s (fun _ => true)) && k s
    end.

End Match.

(** [bool(re.match(pattern, subject))]: a match starting at position 0;
    it need not reach the end unless the pattern says so. *)
Definition re_match (pattern : re) (subject : string) : bool :=
  let s := list_ascii_of_string subject in
  m (List.length s) pattern s (fun _ => true).

(** ** Pattern notation *)

Declare Scope re_scope.
Delimit Scope re_scope with re.
Bind Scope re_scope with re.
Infix ";;" := Cat (at level 60, right associativity) : re_scope.
Infix "<|>" := Alt (at level 70, right associativity) : re_scope.
Local Open Scope re_scope.

Definition opt (r : re) : re := Rep 0 (Some 1) r.          (* r? *)
Definition plus (r : re) : re := Rep 1 None r.             (* r+ *)
Definition star (r : re) : re := Rep 0 None r.             (* r* *)
Definition lit (c : ascii) : re := Chr (Lit c).
Definition d : re := Chr Digit.                            (* \d *)
Definition sp : re := Chr Space.                           (* \s *)
Definition alpha : re := Chr (OneOf [SRange "A" "Z"; SRange "a" "z"]).
Definition upper : re := Chr (OneOf [SRange "A" "Z"]).
Definition rep (lo hi : nat) (r : re) : re := Rep lo (Some hi) r.   (* r{lo,hi} *)

(** ** Validators *)

(** The pattern of [validate_phone_number]:
    [^(?!(\d{6,}))\+?\d{0,3}\s?(\d\s|(\(\d{2}\)\s)|(\(\d{3}\)))?]
    [[.-]?\d{2,5}[\s.-]?\d{2,5}[\s.-]?\d{1,9}$] *)
Definition phone_number_pattern : re :=
  Bol ;; NLook (Rep 6 None d) ;;
  opt (lit "+") ;; rep 0 3 d ;; opt sp ;;
  opt ((d ;; sp)
       <|> (lit "(" ;; rep 2 2 d ;; lit ")" ;; sp)
       <|> (lit "(" ;; rep 3 3 d ;; lit ")")) ;;
  opt (Chr (OneOf [SChar "."; SChar "-"])) ;; rep 2 5 d ;;
  opt (Chr (OneOf [SSpace; SChar "."; SChar "-"])) ;; rep 2 5 d ;;
  opt (Chr (OneOf [SSpace; SChar "."; SChar "-"])) ;; rep 1 9 d ;;
  Eol.

Definition validate_phone_number (phone_number : string) : bool :=
  re_match phone_number_pattern phone_number.

(** The seven alternatives of the pattern of [validate_full_name], in the
    order of the source. *)
Definition letters_or_space : re :=
  Chr (OneOf [SSpace; SRange "A" "Z"; SRange "a" "z"]).

Definition name_alt1 : re := rep 1 3 (plus alpha ;; opt sp).
Definition name_alt2 : re :=
  plus alpha ;; lit "," ;; sp ;; plus alpha ;; star letters_or_space.
Definition name_alt3 : re :=
  (plus alpha ;; sp) ;; alpha ;; lit "'" ;; plus alpha ;;
  opt (lit "-" ;; plus alpha).
Definition name_alt4 : re :=
  alpha ;; lit "'" ;; plus alpha ;; lit "," ;; sp ;; plus alpha ;; sp ;;
  upper ;; lit ".".
Definition name_alt5 : re :=
  plus alpha ;; sp ;; alpha ;; lit "." ;; sp ;; plus alpha.
Definition name_alt6 : re :=
  plus alpha ;; sp ;; alpha ;; lit "." ;; sp ;; upper ;; lit "'" ;;
  plus alpha.
Definition name_alt7 : re :=
  plus alpha ;; lit "," ;; sp ;; plus alpha ;; sp ;; upper ;; lit ".".

Definition name_alternatives : list re :=
  [name_alt1; name_alt2; name_alt3; name_alt4; name_alt5; name_alt6;
   name_alt7].

Definition name_shape : re :=
  name_alt1 <|> name_alt2 <|> name_alt3 <|> name_alt4 <|> name_alt5
  <|> name_alt6 <|> name_alt7.

(** [^(?=.{1,35}$)(a1|...|a7)$] *)
Definition full_name_pattern : re :=
  Bol ;; Look (rep 1 35 (Chr Dot) ;; Eol) ;; name_shape ;; Eol.

Definition validate_full_name (name : string) : bool :=
  re_match full_name_pattern name.

Local Open Scope string_scope.

(** ** Tables *)

(** A row of the [phonebook] table. *)
Module PhoneBook.
Record t : Type := mk {
    id : Z;
    full_name : string;
    phone_number : string
}.
End PhoneBook.

(** A row of the [audit_log] table; [full_name] and [phone_number] are
    NULL when the constructor is not given them. *)
Module AuditLog.
Record t : Type := mk {
    id : Z;
    timestamp : Z;
    action : string;
    full_name : option string;
    phone_number : option string
}.
End AuditLog.

(** The request body of [add_person]. *)
Module Person.
Record t : Type := mk {
    full_name : string;
    phone_number : string
}.
End Person.

(** The two databases, rows in insertion order. *)
Record DB : Type := mkDB {
  phonebook : list PhoneBook.t;
  audit_log : list AuditLog.t
}.

(** The integer primary key given to a new row.  The database chooses
    it; it is taken here as one more than the largest key in use, and
    what is proved of the handlers uses of it only that no row of the
    table has it. *)
Definition next_id (ids : list Z) : Z := 1 + fold_right Z.max 0%Z ids.

(** [session.query(PhoneBook).filter(column == value).first()] *)
Definition first_by (column : PhoneBook.t -> string) (value : string)
    (rows : list PhoneBook.t) : option PhoneBook.t :=
  find (fun row => String.eqb (column row) value) rows.

(** [session.add(PhoneBook(full_name=..., phone_number=...)); commit()] *)
Definition insert_person (full_name phone_number : string)
    (rows : list PhoneBook.t) : list PhoneBook.t :=
  rows ++ [PhoneBook.mk (next_id (map PhoneBook.id rows)) full_name phone_number].

(** [session.delete(person); commit()]: the row is deleted by primary key. *)
Definition delete_person (person : PhoneBook.t) (rows : list PhoneBook.t)
    : list PhoneBook.t :=
  filter (fun row => negb (Z.eqb (PhoneBook.id row) (PhoneBook.id person))) rows.

(** [session.add(AuditLog(action=..., ...)); commit()]; the timestamp is the
    server's clock, read when the row is inserted. *)
Definition insert_audit (now : Z) (action : string)
    (full_name phone_number : option string) (rows : list AuditLog.t)
    : list AuditLog.t :=
  rows ++ [AuditLog.mk (next_id (map AuditLog.id rows)) now action
             full_name phone_number].

(** ** Handlers *)

(** A handler returns its body (status 200) or raises [HTTPException]. *)
Inductive response (A : Type) : Type :=
| Ok (body : A)
| HTTPException (status_code : Z) (detail : string).
Arguments Ok {A} body.
Arguments HTTPException {A} status_code detail.

Definition invalid_input {A : Type} : response A :=
  HTTPException 400
    "Invalid input. Please check your response and try again.".

Definition list_phonebook (now : Z) (db : DB)
    : DB * response (list PhoneBook.t) :=
  let rows := phonebook db in
  let db := mkDB (phonebook db)
              (insert_audit now "list" None None (audit_log db)) in
  (db, Ok rows).

Definition add_person (now : Z) (person : Person.t) (db : DB)
    : DB * response string :=
  if negb (validate_full_name (Person.full_name person)) then
    (db, invalid_input)
  else if negb (validate_phone_number (Person.phone_number person)) then
    (db, invalid_input)
  else
    let existing_number :=
      first_by PhoneBook.phone_number (Person.phone_number person)
        (phonebook db) in
    let existing_person :=
      first_by PhoneBook.full_name (Person.full_name person)
        (phonebook db) in
    match existing_number with
    | Some _ =>
        (db, HTTPException 400 "Phone number already exists in the database")
    | None =>
        match existing_person with
        | Some _ =>
            (db, HTTPException 400 "Person already exists in the database")
        | None =>
            let db := mkDB
                        (insert_person (Person.full_name person)
                           (Person.phone_number person) (phonebook db))
                        (audit_log db) in
            let db := mkDB (phonebook db)
                        (insert_audit now "add"
                           (Some (Person.full_name person))
                           (Some (Person.phone_number person))
                           (audit_log db)) in
            (db, Ok "Person added successfully")
        end
    end.

Definition delete_by_name (now : Z) (full_name : string) (db : DB)
    : DB * response string :=
  if negb (validate_full_name full_name) then (db, invalid_input)
  else
    match first_by PhoneBook.full_name full_name (phonebook db) with
    | None => (db, HTTPException 404 "Person not found in the database")
    | Some person =>
        let db := mkDB (delete_person person (phonebook db))
                    (audit_log db) in
        let db := mkDB (phonebook db)
                    (insert_audit now "delete-by-name"
                       (Some (PhoneBook.full_name person))
                       (Some (PhoneBook.phone_number person))
                       (audit_log db)) in
        (db, Ok "Person deleted successfully")
    end.

Definition delete_by_number (now : Z) (phone_number : string) (db : DB)
    : DB * response string :=
  if negb (validate_phone_number phone_number) then (db, invalid_input)
  else
    match first_by PhoneBook.phone_number phone_number (phonebook db) with
    | None => (db, HTTPException 404 "Person not found in the database")
    | Some person =>
        let db := mkDB (delete_person person (phonebook db))
                    (audit_log db) in
        let db := mkDB (phonebook db)
                    (insert_audit now "delete-by-number"
                       (Some (PhoneBook.full_name person))
                       (Some (PhoneBook.phone_number person))
                       (audit_log db)) in
        (db, Ok "Person deleted successfully")
    end.

(** ** Sequential execution *)

Inductive request : Type :=
| GetList
| PostAdd (person : Person.t)
| PutDeleteByName (full_name : string)
| PutDeleteByNumber (phone_number : string).

(** The databases after one request, handled at time [now]. *)
Definition serve (now : Z) (req : request) (db : DB) : DB :=
  match req with
  | GetList => fst (list_phonebook now db)
  | PostAdd person => fst (add_person now person db)
  | PutDeleteByName full_name => fst (delete_by_name now full_name db)
  | PutDeleteByNumber phone_number =>
      fst (delete_by_number now phone_number db)
  end.

(** The databases after a sequence of timed requests, one after another. *)
Definition run (reqs : list (Z * request)) (db : DB) : DB :=
  fold_left (fun db tr => serve (fst tr) (snd tr) db) reqs db.

(** * What a pattern matches *)

Local Open Scope list_scope.

(** [n] successive steps of [R]. *)
Fixpoint iter (R : chars -> chars -> Prop) (n : nat) (s s' : chars) : Prop :=
  match n with
  | O => s' = s
  | S n' => exists t, R s t /\ iter R n' t s'
  end.

Section Denotation.

Variable total : nat.

(** [den r s s']: from the subject's suffix [s], pattern [r] can match up
    to the suffix [s'].  A repeat [{lo,hi}] is compiled only with
    [lo <= hi], where [Nat.max lo hi] is [hi]. *)
Fixpoint den (r : re) (s s' : chars) : Prop :=
  match r with
  | Bol => List.length s = total /\ s' = s
  | Eol => at_eol s = true /\ s' = s
  | Chr a => exists c, s = c :: s' /\ atom_matches a c = true
  | Cat r1 r2 => exists t, den r1 s t /\ den r2 t s'
  | Alt r1 r2 => den r1 s s' \/ den r2 s s'
  | Rep lo hi r0 =>
      exists n, lo <= n
                /\ match hi with Some h => n <= Nat.max lo h | None => True end
                /\ iter (den r0) n s s'
  | Look r0 => (exists t, den r0 s t) /\ s' = s
  | NLook r0 => ~ (exists t, den r0 s t) /\ s' = s
  end.

End Denotation.

(** ** Counting characters *)

Definition count (p : ascii -> bool) (s : chars) : nat :=
  List.length (filter p s).

Definition all_chars : list ascii := map ascii_of_nat (seq 0 256).

(** Every character the atom matches satisfies [p]. *)
Definition atom_within (p : ascii -> bool) (a : atom) : bool :=
  forallb (fun c => implb (atom_matches a c) (p c)) all_chars.

(** No character the atom matches satisfies [p]. *)
Definition atom_avoids (p : ascii -> bool) (a : atom) : bool :=
  forallb (fun c => implb (atom_matches a c) (negb (p c))) all_chars.

(** A lower bound on the [p]-characters in whatever [r] consumes. *)
Fixpoint at_least (p : ascii -> bool) (r : re) : nat :=
  match r with
  | Chr a => if atom_within p a then 1 else 0
  | Cat r1 r2 => at_least p r1 + at_least p r2
  | Alt r1 r2 => Nat.min (at_least p r1) (at_least p r2)
  | Rep lo _ r0 => lo * at_least p r0
  | Bol | Eol | Look _ | NLook _ => 0
  end.

(** [r] consumes no [p]-character. *)
Fixpoint avoids (p : ascii -> bool) (r : re) : bool :=
  match r with
  | Chr a => atom_avoids p a
  | Cat r1 r2 | Alt r1 r2 => avoids p r1 && avoids p r2
  | Rep _ _ r0 => avoids p r0
  | Bol | Eol | Look _ | NLook _ => true
  end.

(** An upper bound on the number of characters [r] consumes, when there
    is one. *)
Fixpoint at_most (r : re) : option nat :=
  match r with
  | Chr _ => Some 1
  | Cat r1 r2 =>
      match at_most r1, at_most r2 with
      | Some a, Some b => Some (a + b)
      | _, _ => None
      end
  | Alt r1 r2 =>
      match at_most r1, at_most r2 with
      | Some a, Some b => Some (Nat.max a b)
      | _, _ => None
      end
  | Rep lo (Some h) r0 =>
      match at_most r0 with
      | Some a => Some (Nat.max lo h * a)
      | None => None
      end
  | Rep _ None _ => None
  | Bol | Eol | Look _ | NLook _ => Some 0
  end.

(** The leading run of digits. *)
Fixpoint leading_digits (s : chars) : nat :=
  match s with
  | c :: s' => if is_digit c then S (leading_digits s') else 0
  | [] => 0
  end.

Definition hyphen : ascii := "-"%char.
Definition apostrophe : ascii := "'"%char.

(** ** The uniqueness invariant of the contact store *)

Definition names (db : DB) : list string :=
  map PhoneBook.full_name (phonebook db).

Definition numbers (db : DB) : list string :=
  map PhoneBook.phone_number (phonebook db).

Definition unique (db : DB) : Prop := NoDup (names db) /\ NoDup (numbers db).

Definition empty_db : DB := mkDB [] [].

(** The store after one contact was added to the empty store. *)
Definition john : Person.t := Person.mk "John Smith" "+1 555-1234".
Definition one_contact_db : DB := fst (add_person 1 john empty_db).

(** A name of 35 letters followed by a line feed. *)
Definition long_name : string :=
  String.append "aaaaaaaaaaaaaaaaaaaaaaaaaaaaaaaaaaa" (String newline "").

(** ** Further vocabulary for the validators *)

(** [[A-Za-z]] *)
Definition is_alpha (c : ascii) : bool :=
  in_range "A" "Z" c || in_range "a" "z" c.

(** The characters that the pattern of [validate_phone_number] names. *)
Definition phone_char (c : ascii) : bool :=
  is_digit c || is_space c
  || existsb (Ascii.eqb c) ["+"; "("; ")"; "."; "-"]%char.

(** The characters that the pattern of [validate_full_name] names. *)
Definition name_char (c : ascii) : bool :=
  is_alpha c || is_space c
  || existsb (Ascii.eqb c) [","; "'"; "."; "-"]%char.

(** The pattern ends in [$]. *)
Fixpoint ends_with_eol (r : re) : bool :=
  match r with
  | Eol => true
  | Cat _ r2 => ends_with_eol r2
  | _ => false
  end.

(** Every match of [r] starts by consuming a [p]-character. *)
Fixpoint starts (p : ascii -> bool) (r : re) : bool :=
  match r with
  | Chr a => atom_within p a
  | Cat r1 _ => starts p r1
  | Alt r1 r2 => starts p r1 && starts p r2
  | Rep lo _ r0 => Nat.leb 1 lo && starts p r0
  | Bol | Eol | Look _ | NLook _ => false
  end.

(** No anchor and no lookahead: what [r] matches does not depend on what
    surrounds it. *)
Fixpoint plain (r : re) : bool :=
  match r with
  | Chr _ => true
  | Cat r1 r2 | Alt r1 r2 => plain r1 && plain r2
  | Rep _ _ r0 => plain r0
  | Bol | Eol | Look _ | NLook _ => false
  end.

(** A plain pattern followed by [$]. *)
Fixpoint plain_eol (r : re) : bool :=
  match r with
  | Eol => true
  | Cat r1 r2 => plain r1 && plain_eol r2
  | _ => false
  end.

Definition ends_with_newline (s : chars) : Prop :=
  exists u, s = u ++ [newline].

(** The subject followed by one line feed. *)
Definition with_newline (s : string) : string :=
  String.append s (String newline "").

(** ** Further vocabulary for the stores *)

(** Every stored contact passed both validators. *)
Definition stored_valid (db : DB) : Prop :=
  Forall (fun row => validate_full_name (PhoneBook.full_name row) = true
                     /\ validate_phone_number (PhoneBook.phone_number row)
                        = true)
    (phonebook db).

(** ** Subjects over all code points

    A [str] is a sequence of code points, and on a [str] pattern [\d] is
    the decimal-digit class and [\s] the white-space class of the
    interpreter's character database.  The two classes are parameters
    here; the patterns are the ones above, and [[A-Z]], [[a-z]] and the
    literal characters are read by code point. *)

Module Str.

Definition matcher := list N -> (list N -> bool) -> bool.

Fixpoint rep_exact (body : matcher) (n : nat) : matcher :=
  fun s k =>
    match n with
    | O => k s
    | S n' => body s (fun s' => rep_exact body n' s' k)
    end.

Fixpoint rep_upto (body : matcher) (n : nat) : matcher :=
  fun s k =>
    match n with
    | O => k s
    | S n' =>
        body s (fun s' => Nat.ltb (List.length s') (List.length s)
                          && rep_upto body n' s' k)
        || k s
    end.

Definition at_eol (s : list N) : bool :=
  match s with
  | [] => true
  | [c] => N.eqb c 10
  | _ => false
  end.

Definition count (p : N -> bool) (s : list N) : nat :=
  List.length (filter p s).

Section Classes.

(** [\d] and [\s] on a [str]. *)
Variable decimal : N -> bool.
Variable space : N -> bool.

Definition item_matches (i : set_item) (c : N) : bool :=
  match i with
  | SChar d => N.eqb (N_of_ascii d) c
  | SRange lo hi => N.leb (N_of_ascii lo) c && N.leb c (N_of_ascii hi)
  | SSpace => space c
  | SDigit => decimal c
  end.

Definition atom_matches (a : atom) (c : N) : bool :=
  match a with
  | Lit d => N.eqb (N_of_ascii d) c
  | Dot => negb (N.eqb c 10)
  | Digit => decimal c
  | Space => space c
  | OneOf items => existsb (fun i => item_matches i c) items
  end.

Fixpoint m (total : nat) (r : re) : matcher :=
  fun s k =>
    match r with
    | Bol => Nat.eqb (List.length s) total && k s
    | Eol => at_eol s && k s
    | Chr a =>
        match s with
        | c :: s' => atom_matches a c && k s'
        | [] => false
        end
    | Cat r1 r2 => m total r1 s (fun s' => m total r2 s' k)
    | Alt r1 r2 => m total r1 s k || m total r2 s k
    | Rep lo hi r0 =>
        rep_exact (m total r0) lo s
          (fun s' =>
             rep_upto (m total r0)
               (match hi with Some h => h - lo | None => List.length s' end)
               s' k)
    | Look r0 => m total r0 s (fun _ => true) && k s
    | NLook r0 => negb (m total r0 s (fun _ => true)) && k s
    end.

Definition re_match (pattern : re) (subject : list N) : bool :=
  m (List.length subject) pattern subject (fun _ => true).

Definition validate_phone_number (phone_number : list N) : bool :=
  re_match phone_number_pattern phone_number.

Definition validate_full_name (name : list N) : bool :=
  re_match full_name_pattern name.

End Classes.

(** A lower bound on the [\d]-characters in whatever [r] consumes. *)
Fixpoint decimals_at_least (r : re) : nat :=
  match r with
  | Chr Digit => 1
  | Chr _ => 0
  | Cat r1 r2 => decimals_at_least r1 + decimals_at_least r2
  | Alt r1 r2 => Nat.min (decimals_at_least r1) (decimals_at_least r2)
  | Rep lo _ r0 => lo * decimals_at_least r0
  | Bol | Eol | Look _ | NLook _ => 0
  end.

End Str.

(** The code points of a string of 8-bit characters. *)
Definition codepoints (s : chars) : list N := map N_of_ascii s.

(** A class of 8-bit characters as a class of code points: nothing from
    256 on. *)
Definition latin1 (p : ascii -> bool) (c : N) : bool :=
  N.ltb c 256 && p (ascii_of_N c).

(** A digit class that has, beside 0-9, the Arabic-Indic digits U+0660 to
    U+0669, as the character database does. *)
Definition decimal_with_arabic_indic (c : N) : bool :=
  latin1 is_digit c || (N.leb 1632 c && N.leb c 1641).

(** U+0661 .. U+0665 *)
Definition arabic_indic_12345 : list N := [1633; 1634; 1635; 1636; 1637]%N.

(** * Properties of the matcher *)

Lemma iter_app (R : chars -> chars -> Prop) (a b : nat) (s s' : chars) :
  iter R (a + b) s s' <-> exists t, iter R a s t /\ iter R b t s'.
Proof.
  revert s. induction a as [|a IH]; intros s; simpl.
  - split.
    + intros H. exists s. auto.
    + intros [t [-> H]]. exact H.
  - split.
    + intros [t [Hst H]]. apply IH in H. destruct H as [u [Hu Hb]].
      exists u. split; [exists t; auto | exact Hb].
    + intros [u [[t [Hst Ha]] Hb]]. exists t. split; [exact Hst|].
      apply IH. exists u. auto.
Qed.

(** Whatever a pattern matches is taken from the front of the subject. *)
Lemma iter_consumes (R : chars -> chars -> Prop) :
  (forall s s', R s s' -> exists u, s = u ++ s') ->
  forall n s s', iter R n s s' -> exists u, s = u ++ s'.
Proof.
  intros HR n. induction n as [|n IH]; intros s s' H; simpl in H.
  - subst. exists []. reflexivity.
  - destruct H as [t [Hst H]]. apply HR in Hst. apply IH in H.
    destruct Hst as [u ->]. destruct H as [v ->].
    exists (u ++ v). now rewrite app_assoc.
Qed.

Lemma den_consumes (total : nat) (r : re) :
  forall s s', den total r s s' -> exists u, s = u ++ s'.
Proof.
  induction r as [| |a|r1 IH1 r2 IH2|r1 IH1 r2 IH2|lo hi r0 IH|r0 IH|r0 IH];
    intros s s' H; simpl in H.
  - destruct H as [_ ->]. now exists [].
  - destruct H as [_ ->]. now exists [].
  - destruct H as [c [-> _]]. now exists [c].
  - destruct H as [t [H1 H2]]. apply IH1 in H1. apply IH2 in H2.
    destruct H1 as [u ->]. destruct H2 as [v ->].
    exists (u ++ v). now rewrite app_assoc.
  - destruct H as [H|H]; auto.
  - destruct H as [n [_ [_ H]]]. now apply (iter_consumes _ IH) in H.
  - destruct H as [_ ->]. now exists [].
  - destruct H as [_ ->]. now exists [].
Qed.

Lemma consumed_nothing_or_shorter (u s' : chars) :
  u ++ s' = s' \/ List.length s' < List.length (u ++ s').
Proof.
  destruct u as [|c u]; [now left|right].
  rewrite length_app. simpl. lia.
Qed.

(** ** The matcher decides the denotation *)

Section Repeat.

Variable body : matcher.
Variable R : chars -> chars -> Prop.
Hypothesis body_spec :
  forall s k, body s k = true <-> exists s', R s s' /\ k s' = true.
Hypothesis R_consumes : forall s s', R s s' -> exists u, s = u ++ s'.

Lemma rep_exact_spec (n : nat) :
  forall s k,
    rep_exact body n s k = true <-> exists s', iter R n s s' /\ k s' = true.
Proof.
  induction n as [|n IH]; intros s k; simpl.
  - split.
    + intros H. exists s. auto.
    + intros [s' [-> H]]. exact H.
  - rewrite body_spec. split.
    + intros [t [Hst H]]. apply IH in H. destruct H as [s' [Hit Hk]].
      exists s'. split; [exists t; auto | exact Hk].
    + intros [s' [[t [Hst Hit]] Hk]]. exists t. split; [exact Hst|].
      apply IH. exists s'. auto.
Qed.

Lemma rep_upto_sound (n : nat) :
  forall s k,
    rep_upto body n s k = true ->
    exists j s', j <= n /\ iter R j s s' /\ k s' = true.
Proof.
  induction n as [|n IH]; intros s k H; simpl in H.
  - exists 0, s. simpl. auto.
  - apply orb_true_iff in H. destruct H as [H|H].
    + apply body_spec in H. destruct H as [t [Hst H]].
      apply andb_true_iff in H. destruct H as [_ H].
      apply IH in H. destruct H as [j [s' [Hj [Hit Hk]]]].
      exists (S j), s'. repeat split; [lia | exists t; auto | exact Hk].
    + exists 0, s. simpl. repeat split; [lia | exact H].
Qed.

(** [j] iterations are found with [n] allowed when [j <= n], and also
    when [n] is the number of characters left: iterations that consume
    nothing can be dropped. *)
Lemma rep_upto_complete (k : chars -> bool) (j : nat) :
  forall n s s',
    iter R j s s' -> k s' = true ->
    j <= n \/ List.length s <= n ->
    rep_upto body n s k = true.
Proof.
  induction j as [|j IH]; intros n s s' Hit Hk Hn; simpl in Hit.
  - subst s'. destruct n; simpl; [exact Hk|]. rewrite Hk. apply orb_true_r.
  - destruct Hit as [t [Hst Hit]].
    destruct (R_consumes _ _ Hst) as [u Hu]. subst s.
    destruct (consumed_nothing_or_shorter u t) as [Hsame|Hshort].
    + rewrite Hsame in *. apply (IH n t s' Hit Hk). lia.
    + destruct n as [|n].
      * exfalso. lia.
      * simpl. apply orb_true_iff. left. apply body_spec.
        exists t. split; [exact Hst|].
        apply andb_true_iff. split; [now apply Nat.ltb_lt|].
        apply (IH n t s' Hit Hk). lia.
Qed.

End Repeat.

Theorem m_den (total : nat) (r : re) :
  forall s k,
    m total r s k = true <-> exists s', den total r s s' /\ k s' = true.
Proof.
  induction r as [| |a|r1 IH1 r2 IH2|r1 IH1 r2 IH2|lo hi r0 IH|r0 IH|r0 IH];
    intros s k; simpl.
  - rewrite andb_true_iff, Nat.eqb_eq. split.
    + intros [H1 H2]. exists s. auto.
    + intros [s' [[H1 ->] H2]]. auto.
  - rewrite andb_true_iff. split.
    + intros [H1 H2]. exists s. auto.
    + intros [s' [[H1 ->] H2]]. auto.
  - destruct s as [|c s].
    + split; [discriminate|]. intros [s' [[c [H _]] _]]. discriminate.
    + rewrite andb_true_iff. split.
      * intros [H1 H2]. exists s. split; [exists c; auto | exact H2].
      * intros [s' [[c' [Heq H1]] H2]]. inversion Heq; subst. auto.
  - rewrite IH1. split.
    + intros [t [H1 H2]]. apply IH2 in H2. destruct H2 as [s' [H2 Hk]].
      exists s'. split; [exists t; auto | exact Hk].
    + intros [s' [[t [H1 H2]] Hk]]. exists t. split; [exact H1|].
      apply IH2. exists s'. auto.
  - rewrite orb_true_iff, IH1, IH2. split.
    + intros [[s' [H Hk]]|[s' [H Hk]]]; exists s'; auto.
    + intros [s' [[H|H] Hk]]; [left|right]; exists s'; auto.
  - rewrite (rep_exact_spec _ _ IH). split.
    + intros [t [Hlo H]].
      apply (rep_upto_sound _ _ IH) in H.
      destruct H as [j [s' [Hj [Hit Hk]]]].
      exists s'. split; [|exact Hk].
      exists (lo + j). repeat split; [lia | destruct hi; [lia|exact I] |].
      apply iter_app. exists t. auto.
    + intros [s' [[n [Hlo [Hhi Hit]]] Hk]].
      replace n with (lo + (n - lo)) in Hit by lia.
      apply iter_app in Hit. destruct Hit as [t [H1 H2]].
      exists t. split; [exact H1|].
      apply (rep_upto_complete _ _ IH (den_consumes total r0) k (n - lo)
               _ t s' H2 Hk).
      destruct hi as [h|]; [left|right]; lia.
  - rewrite andb_true_iff, IH. split.
    + intros [[t [H _]] Hk]. exists s. repeat split; [exists t|]; assumption.
    + intros [s' [[[t H] ->] Hk]]. split; [exists t; auto | exact Hk].
  - rewrite andb_true_iff, negb_true_iff. split.
    + intros [Hn Hk]. exists s. repeat split; [|exact Hk].
      intros [t H]. assert (Hm : m total r0 s (fun _ => true) = true).
      { apply IH. exists t. auto. }
      congruence.
    + intros [s' [[Hn ->] Hk]]. split; [|exact Hk].
      destruct (m total r0 s (fun _ => true)) eqn:E; [|reflexivity].
      apply IH in E. destruct E as [t [H _]]. exfalso. apply Hn. now exists t.
Qed.

(** ** Bounds on what a pattern consumes *)

Lemma count_app (p : ascii -> bool) (u v : chars) :
  count p (u ++ v) = count p u + count p v.
Proof. unfold count. now rewrite filter_app, length_app. Qed.

Lemma count_In (p : ascii -> bool) (s : chars) :
  0 < count p s <-> exists c, In c s /\ p c = true.
Proof.
  unfold count. split.
  - destruct (filter p s) as [|c l] eqn:E; simpl; [lia|]. intros _.
    exists c. apply filter_In. rewrite E. now left.
  - intros [c [Hin Hp]].
    assert (H : In c (filter p s)) by (apply filter_In; auto).
    destruct (filter p s); simpl; [contradiction | lia].
Qed.

Lemma all_chars_complete (c : ascii) : In c all_chars.
Proof.
  unfold all_chars. rewrite <- (ascii_nat_embedding c).
  apply in_map, in_seq. pose proof (nat_ascii_bounded c). lia.
Qed.

Lemma atom_within_spec (p : ascii -> bool) (a : atom) (c : ascii) :
  atom_within p a = true -> atom_matches a c = true -> p c = true.
Proof.
  unfold atom_within. rewrite forallb_forall. intros H Hm.
  specialize (H c (all_chars_complete c)). now rewrite Hm in H.
Qed.

Lemma atom_avoids_spec (p : ascii -> bool) (a : atom) (c : ascii) :
  atom_avoids p a = true -> atom_matches a c = true -> p c = false.
Proof.
  unfold atom_avoids. rewrite forallb_forall. intros H Hm.
  specialize (H c (all_chars_complete c)). rewrite Hm in H.
  now apply negb_true_iff.
Qed.

Section Bounds.

Variable p : ascii -> bool.
Variable total : nat.

Lemma iter_bounds (R : chars -> chars -> Prop) (lb : nat) (av : bool)
    (ub : option nat) :
  (forall s s', R s s' -> exists u, s = u ++ s') ->
  (forall u s', R (u ++ s') s' ->
     lb <= count p u /\ (av = true -> count p u = 0)
     /\ (forall a, ub = Some a -> List.length u <= a)) ->
  forall n u s', iter R n (u ++ s') s' ->
    n * lb <= count p u /\ (av = true -> count p u = 0)
    /\ (forall a, ub = Some a -> List.length u <= n * a).
Proof.
  intros Hc HR n. induction n as [|n IH]; intros u s' H; simpl in H.
  - assert (u = []) as -> by (apply (app_inv_tail s'); exact (eq_sym H)).
    simpl. repeat split; auto.
  - destruct H as [t [Hst Hit]].
    destruct (iter_consumes R Hc _ _ _ Hit) as [v ->].
    destruct (Hc _ _ Hst) as [w Hw].
    rewrite app_assoc in Hw. apply app_inv_tail in Hw. subst u.
    rewrite <- app_assoc in Hst.
    apply HR in Hst. apply IH in Hit.
    destruct Hst as [H1 [H2 H3]]. destruct Hit as [H4 [H5 H6]].
    rewrite count_app, length_app. repeat split.
    + simpl. lia.
    + intros Hav. rewrite (H2 Hav), (H5 Hav). reflexivity.
    + intros a Ha. specialize (H3 a Ha). specialize (H6 a Ha). simpl. lia.
Qed.

Lemma den_bounds (r : re) :
  forall u s', den total r (u ++ s') s' ->
    at_least p r <= count p u /\ (avoids p r = true -> count p u = 0)
    /\ (forall a, at_most r = Some a -> List.length u <= a).
Proof.
  assert (Hnil : forall u s' : chars, s' = u ++ s' -> u = []).
  { intros u s' H. apply (app_inv_tail s'). exact (eq_sym H). }
  induction r as [| |a|r1 IH1 r2 IH2|r1 IH1 r2 IH2|lo hi r0 IH|r0 IH|r0 IH];
    intros u s' H; simpl in H.
  - destruct H as [_ H]. apply Hnil in H. subst. simpl.
    repeat split; auto; intros; lia.
  - destruct H as [_ H]. apply Hnil in H. subst. simpl.
    repeat split; auto; intros; lia.
  - destruct H as [c [Heq Hm]].
    assert (u = [c]) as ->.
    { apply (app_inv_tail s'). exact Heq. }
    simpl. unfold count. simpl. repeat split.
    + destruct (atom_within p a) eqn:E; [|lia].
      rewrite (atom_within_spec p a c E Hm). simpl. lia.
    + intros E. now rewrite (atom_avoids_spec p a c E Hm).
    + intros n Hn. inversion Hn. simpl. lia.
  - destruct H as [t [H1 H2]].
    destruct (den_consumes _ _ _ _ H2) as [v ->].
    destruct (den_consumes _ _ _ _ H1) as [w Hw].
    rewrite app_assoc in Hw. apply app_inv_tail in Hw. subst u.
    rewrite <- app_assoc in H1. apply IH1 in H1. apply IH2 in H2.
    destruct H1 as [A1 [B1 C1]]. destruct H2 as [A2 [B2 C2]].
    rewrite count_app, length_app. simpl. repeat split.
    + lia.
    + intros E. apply andb_true_iff in E. destruct E as [E1 E2].
      rewrite (B1 E1), (B2 E2). reflexivity.
    + intros n Hn. destruct (at_most r1) as [a|]; [|discriminate].
      destruct (at_most r2) as [b|]; [|discriminate].
      inversion Hn. specialize (C1 a eq_refl). specialize (C2 b eq_refl). lia.
  - assert (Hub : forall n x, at_most (Alt r1 r2) = Some n ->
                     (forall a, at_most r1 = Some a -> x <= a)
                     \/ (forall b, at_most r2 = Some b -> x <= b) ->
                     x <= n).
    { simpl. intros n x Hn Hx.
      destruct (at_most r1) as [a|]; [|discriminate].
      destruct (at_most r2) as [b|]; [|discriminate].
      inversion Hn. destruct Hx as [Hx|Hx]; specialize (Hx _ eq_refl); lia. }
    destruct H as [H|H]; [apply IH1 in H|apply IH2 in H];
      destruct H as [A [B C]]; (split; [simpl; lia|split]).
    + simpl. intros E. apply andb_true_iff in E. destruct E. auto.
    + intros n Hn. apply (Hub n _ Hn). now left.
    + simpl. intros E. apply andb_true_iff in E. destruct E. auto.
    + intros n Hn. apply (Hub n _ Hn). now right.
  - destruct H as [n [Hlo [Hhi Hit]]].
    apply (iter_bounds _ (at_least p r0) (avoids p r0) (at_most r0)
             (den_consumes total r0) IH) in Hit.
    destruct Hit as [A [B C]]. simpl. repeat split.
    + nia.
    + exact B.
    + intros a Ha. destruct hi as [h|]; [|discriminate].
      destruct (at_most r0) as [b|]; [|discriminate].
      inversion Ha. specialize (C b eq_refl). nia.
  - destruct H as [_ H]. apply Hnil in H. subst. simpl.
    repeat split; auto; intros; lia.
  - destruct H as [_ H]. apply Hnil in H. subst. simpl.
    repeat split; auto; intros; lia.
Qed.

End Bounds.

(** * The validators *)

Lemma re_match_den (pattern : re) (subject : string) :
  re_match pattern subject = true <->
  exists u s', list_ascii_of_string subject = u ++ s'
               /\ den (List.length (list_ascii_of_string subject)) pattern
                    (u ++ s') s'.
Proof.
  unfold re_match. cbv zeta. rewrite m_den. split.
  - intros [s' [H _]]. destruct (den_consumes _ _ _ _ H) as [u Hu].
    exists u, s'. split; [exact Hu|]. now rewrite <- Hu.
  - intros [u [s' [Hu H]]]. exists s'. rewrite Hu at 2. auto.
Qed.

Lemma at_eol_inv (s : chars) : at_eol s = true -> s = [] \/ s = [newline].
Proof.
  destruct s as [|c [|c' s]]; simpl; intros H; try discriminate; auto.
  apply Ascii.eqb_eq in H. subst. auto.
Qed.

Lemma leading_digits_rep_exact (total : nat) (k : chars -> bool) :
  (forall s, k s = true) ->
  forall n s, n <= leading_digits s -> rep_exact (m total d) n s k = true.
Proof.
  intros Hk n. induction n as [|n IH]; intros s Hn.
  - apply Hk.
  - destruct s as [|c s]; simpl in Hn; [lia|].
    destruct (is_digit c) eqn:E; [|lia].
    change (rep_exact (m total d) (S n) (c :: s) k)
      with (is_digit c && rep_exact (m total d) n s k).
    rewrite E. apply IH. lia.
Qed.

Lemma rep_upto_anything (body : matcher) (n : nat) (s : chars) :
  rep_upto body n s (fun _ => true) = true.
Proof. destruct n; simpl; [reflexivity|apply orb_true_r]. Qed.

(** The guard [(?!(\d{6,}))] fails on six leading digits. *)
Lemma six_digits_guard (total : nat) (s : chars) :
  6 <= leading_digits s -> m total (Rep 6 None d) s (fun _ => true) = true.
Proof.
  intros H.
  change (rep_exact (m total d) 6 s
            (fun s' => rep_upto (m total d) (List.length s') s'
                         (fun _ => true)) = true).
  apply leading_digits_rep_exact; [|exact H].
  intros s'. apply rep_upto_anything.
Qed.

(** A pattern [^(?!g)r] matches nothing where [g] matches. *)
Lemma guarded_start (total : nat) (g r : re) (s : chars)
    (k : chars -> bool) :
  m total g s (fun _ => true) = true ->
  m total (Bol ;; NLook g ;; r) s k = false.
Proof.
  intros H.
  change (m total (Bol ;; NLook g ;; r) s k)
    with (Nat.eqb (List.length s) total
          && (negb (m total g s (fun _ => true)) && m total r s k)).
  rewrite H. apply andb_false_r.
Qed.

(** C2: a phone number that [validate_phone_number] accepts starts with
    at most 5 digits in a row, and a string that starts with 6 or more
    digits in a row is rejected whatever follows them. *)
Theorem validate_phone_number_leading_digits (phone_number : string) :
  (validate_phone_number phone_number = true ->
   leading_digits (list_ascii_of_string phone_number) <= 5)
  /\ (6 <= leading_digits (list_ascii_of_string phone_number) ->
      validate_phone_number phone_number = false).
Proof.
  assert (H6 : 6 <= leading_digits (list_ascii_of_string phone_number) ->
               validate_phone_number phone_number = false).
  { intros H. unfold validate_phone_number, re_match, phone_number_pattern.
    cbv zeta. apply guarded_start. now apply six_digits_guard. }
  split; [|exact H6].
  intros Hv.
  destruct (le_lt_dec (leading_digits (list_ascii_of_string phone_number)) 5)
    as [Hle|Hgt]; [exact Hle|].
  rewrite H6 in Hv by lia. discriminate.
Qed.

Lemma validate_phone_number_leading_digits_witness :
  (validate_phone_number "+1 555-1234" = true
   /\ leading_digits (list_ascii_of_string "+1 555-1234") <= 5)
  /\ (validate_phone_number "12345" = true
      /\ leading_digits (list_ascii_of_string "12345") <= 5)
  /\ (6 <= leading_digits (list_ascii_of_string "123456-7890")
      /\ validate_phone_number "123456-7890" = false).
Proof.
  split; [|split].
  - split; [reflexivity|].
    apply (proj1 (validate_phone_number_leading_digits "+1 555-1234")).
    reflexivity.
  - split; [reflexivity|].
    apply (proj1 (validate_phone_number_leading_digits "12345")).
    reflexivity.
  - assert (H : 6 <= leading_digits (list_ascii_of_string "123456-7890"))
      by (vm_compute; lia).
    split; [exact H|].
    apply (proj2 (validate_phone_number_leading_digits "123456-7890")).
    exact H.
Defined.

(** What the pattern of [validate_full_name] says of an accepted name:
    the length guard holds at the start, and one alternative matches up
    to the end or up to a final line feed. *)
Lemma validate_full_name_inv (name : string) :
  validate_full_name name = true ->
  exists u s',
    list_ascii_of_string name = u ++ s'
    /\ (s' = [] \/ s' = [newline])
    /\ (exists t, den (List.length (u ++ s')) (rep 1 35 (Chr Dot) ;; Eol)
                   (u ++ s') t)
    /\ Exists (fun alt => den (List.length (u ++ s')) alt (u ++ s') s')
         name_alternatives.
Proof.
  unfold validate_full_name. intros H.
  apply re_match_den in H. destruct H as [u [s' [Hu H]]].
  rewrite Hu in H. unfold full_name_pattern in H. cbn [den] in H.
  destruct H as [t1 [[_ E1] [t2 [[Hlook E2] [t3 [Hshape [Heol E3]]]]]]].
  subst t1 t2 t3.
  exists u, s'. split; [exact Hu|]. split; [now apply at_eol_inv|].
  split; [exact Hlook|].
  unfold name_shape in Hshape. cbn [den] in Hshape.
  unfold name_alternatives. rewrite !Exists_cons.
  tauto.
Qed.

(** C10: a name with a hyphen is accepted by [validate_full_name] only
    if it also has an apostrophe; a name with a hyphen and no apostrophe
    is rejected. *)
Theorem validate_full_name_hyphen (name : string) :
  In hyphen (list_ascii_of_string name) ->
  (validate_full_name name = true ->
   In apostrophe (list_ascii_of_string name))
  /\ (~ In apostrophe (list_ascii_of_string name) ->
      validate_full_name name = false).
Proof.
  intros Hhy.
  assert (Hacc : validate_full_name name = true ->
                 In apostrophe (list_ascii_of_string name)).
  { intros Hv. apply validate_full_name_inv in Hv.
    destruct Hv as [u [s' [Hu [Hs' [_ Halt]]]]].
    rewrite Hu in *.
    assert (Hu_hy : 0 < count (Ascii.eqb hyphen) u).
    { assert (H : 0 < count (Ascii.eqb hyphen) (u ++ s')).
      { apply count_In. exists hyphen. split; [exact Hhy|].
        apply Ascii.eqb_refl. }
      rewrite count_app in H.
      destruct Hs' as [-> | ->]; vm_compute count at 2 in H; lia. }
    assert (Hap : 0 < count (Ascii.eqb apostrophe) u).
    { unfold name_alternatives in Halt.
      repeat (apply Exists_cons in Halt; destruct Halt as [Halt|Halt]);
        try (apply Exists_nil in Halt; contradiction);
        try (apply (den_bounds (Ascii.eqb hyphen)) in Halt;
             destruct Halt as [_ [Hav _]];
             specialize (Hav eq_refl); lia).
      apply (den_bounds (Ascii.eqb apostrophe)) in Halt.
      destruct Halt as [Hlb _].
      change (at_least (Ascii.eqb apostrophe) name_alt3) with 1 in Hlb.
      lia. }
    apply count_In in Hap. destruct Hap as [c [Hin Hc]].
    apply Ascii.eqb_eq in Hc. subst c. apply in_or_app. now left. }
  split; [exact Hacc|].
  intros Hno. destruct (validate_full_name name); [|reflexivity].
  exfalso. apply Hno, Hacc. reflexivity.
Qed.

Lemma existsb_eqb_In (c : ascii) (s : chars) :
  existsb (Ascii.eqb c) s = true <-> In c s.
Proof.
  rewrite existsb_exists. split.
  - intros [x [Hin Hx]]. apply Ascii.eqb_eq in Hx. now subst.
  - intros Hin. exists c. split; [exact Hin|apply Ascii.eqb_refl].
Qed.

Lemma validate_full_name_hyphen_witness :
  (In hyphen (list_ascii_of_string "John O'Malley-Smith")
   /\ validate_full_name "John O'Malley-Smith" = true
   /\ In apostrophe (list_ascii_of_string "John O'Malley-Smith"))
  /\ (In hyphen (list_ascii_of_string "John Smith-Jones")
      /\ ~ In apostrophe (list_ascii_of_string "John Smith-Jones")
      /\ validate_full_name "John Smith-Jones" = false).
Proof.
  split.
  - assert (H : In hyphen (list_ascii_of_string "John O'Malley-Smith"))
      by (apply existsb_eqb_In; reflexivity).
    split; [exact H|]. split; [reflexivity|].
    apply (proj1 (validate_full_name_hyphen "John O'Malley-Smith" H)).
    reflexivity.
  - assert (H : In hyphen (list_ascii_of_string "John Smith-Jones"))
      by (apply existsb_eqb_In; reflexivity).
    assert (Hno : ~ In apostrophe (list_ascii_of_string "John Smith-Jones")).
    { intros Hin. apply existsb_eqb_In in Hin. discriminate. }
    split; [exact H|]. split; [exact Hno|].
    apply (proj2 (validate_full_name_hyphen "John Smith-Jones" H)).
    exact Hno.
Defined.

Lemma length_list_ascii_of_string (s : string) :
  List.length (list_ascii_of_string s) = String.length s.
Proof. induction s as [|c s IH]; simpl; [reflexivity|now rewrite IH]. Qed.

Lemma count_all (s : chars) : count (fun _ => true) s = List.length s.
Proof.
  unfold count. induction s as [|c s IH]; simpl; [reflexivity|now rewrite IH].
Qed.

(** The length guard [(?=.{1,35}$)] bounds an accepted name by 36
    characters, not 35: the 36th can only be a final line feed. *)
Lemma validate_full_name_length (name : string) :
  validate_full_name name = true ->
  1 <= String.length name <= 36
  /\ (String.length name = 36 ->
      exists u, list_ascii_of_string name = u ++ [newline]).
Proof.
  intros Hv. apply validate_full_name_inv in Hv.
  destruct Hv as [u [s' [Hu [_ [[t Hlook] _]]]]].
  rewrite <- length_list_ascii_of_string, Hu.
  destruct (den_consumes _ _ _ _ Hlook) as [w Hw].
  rewrite Hw in Hlook |- *.
  cbn [den] in Hlook. destruct Hlook as [t' [Hdots [Heol Heq]]]. subst t'.
  assert (Hb : den (List.length (u ++ s')) (rep 1 35 (Chr Dot)) (w ++ t) t)
    by exact Hdots.
  apply (den_bounds (fun _ => true)) in Hb.
  destruct Hb as [Hlo [_ Hhi]]. specialize (Hhi 35 eq_refl).
  change (at_least (fun _ => true) (rep 1 35 (Chr Dot))) with 1 in Hlo.
  rewrite count_all in Hlo. rewrite length_app.
  apply at_eol_inv in Heol. destruct Heol as [-> | ->]; simpl.
  - split; [lia|]. intros H. exfalso. lia.
  - split; [lia|]. intros _. now exists w.
Qed.

(** C3, at the input that escapes the length guard: [validate_full_name]
    accepts a name of 36 characters, 35 letters and a final line feed. *)
Theorem validate_full_name_accepts_36 :
  validate_full_name long_name = true /\ String.length long_name = 36.
Proof. split; reflexivity. Qed.

(** The empty name is rejected. *)
Lemma validate_full_name_empty : validate_full_name "" = false.
Proof. reflexivity. Qed.

(** * The handlers *)

Lemma first_by_none (column : PhoneBook.t -> string) (value : string)
    (rows : list PhoneBook.t) :
  first_by column value rows = None <-> ~ In value (map column rows).
Proof.
  unfold first_by. induction rows as [|row rows IH]; simpl.
  - tauto.
  - destruct (String.eqb (column row) value) eqn:E.
    + apply String.eqb_eq in E. split; [discriminate|]. intros H. tauto.
    + apply String.eqb_neq in E. rewrite IH. tauto.
Qed.

Lemma first_by_some (column : PhoneBook.t -> string) (value : string)
    (rows : list PhoneBook.t) (row : PhoneBook.t) :
  first_by column value rows = Some row ->
  In row rows /\ column row = value.
Proof.
  unfold first_by. intros H. apply find_some in H.
  destruct H as [Hin H]. now apply String.eqb_eq in H.
Qed.

Lemma first_by_present (column : PhoneBook.t -> string) (value : string)
    (rows : list PhoneBook.t) :
  In value (map column rows) ->
  exists row, first_by column value rows = Some row.
Proof.
  intros Hin. destruct (first_by column value rows) as [row|] eqn:E.
  - now exists row.
  - apply first_by_none in E. contradiction.
Qed.

Lemma delete_person_removes (person : PhoneBook.t)
    (rows : list PhoneBook.t) :
  ~ In person (delete_person person rows).
Proof.
  unfold delete_person. intros H. apply filter_In in H.
  destruct H as [_ H]. rewrite Z.eqb_refl in H. discriminate.
Qed.

Lemma NoDup_snoc {A : Type} (l : list A) (x : A) :
  NoDup l -> ~ In x l -> NoDup (l ++ [x]).
Proof.
  induction l as [|a l IH]; simpl; intros Hnd Hx.
  - constructor; [tauto|constructor].
  - inversion Hnd as [|? ? Ha Hl]; subst. constructor.
    + rewrite in_app_iff. simpl. intros [H|[H|[]]]; [tauto|].
      apply Hx. now left.
    + apply IH; [exact Hl|tauto].
Qed.

Lemma NoDup_map_filter {A B : Type} (f : A -> B) (g : A -> bool)
    (l : list A) :
  NoDup (map f l) -> NoDup (map f (filter g l)).
Proof.
  induction l as [|a l IH]; simpl; intros Hnd; [constructor|].
  inversion Hnd as [|? ? Ha Hl]; subst.
  destruct (g a); simpl; [|now apply IH].
  constructor; [|now apply IH].
  intros H. apply Ha. apply in_map_iff in H. destruct H as [x [Hx Hin]].
  apply filter_In in Hin. apply in_map_iff. exists x. tauto.
Qed.

(** C1: a successful add, delete-by-name or delete-by-number appends
    exactly one audit row, tagged "add", "delete-by-name" or
    "delete-by-number", whose name and number are those of the contact
    added or deleted; a delete takes them from the stored row. *)
Theorem audit_on_success (now : Z) (db db' : DB) (body : string) :
  (forall person,
     add_person now person db = (db', Ok body) ->
     exists entry row,
       audit_log db' = audit_log db ++ [entry]
       /\ phonebook db' = phonebook db ++ [row]
       /\ PhoneBook.full_name row = Person.full_name person
       /\ PhoneBook.phone_number row = Person.phone_number person
       /\ AuditLog.action entry = "add"
       /\ AuditLog.full_name entry = Some (Person.full_name person)
       /\ AuditLog.phone_number entry = Some (Person.phone_number person))
  /\ (forall full_name,
        delete_by_name now full_name db = (db', Ok body) ->
        exists entry row,
          audit_log db' = audit_log db ++ [entry]
          /\ In row (phonebook db)
          /\ PhoneBook.full_name row = full_name
          /\ phonebook db' = delete_person row (phonebook db)
          /\ ~ In row (phonebook db')
          /\ AuditLog.action entry = "delete-by-name"
          /\ AuditLog.full_name entry = Some full_name
          /\ AuditLog.phone_number entry
             = Some (PhoneBook.phone_number row))
  /\ (forall phone_number,
        delete_by_number now phone_number db = (db', Ok body) ->
        exists entry row,
          audit_log db' = audit_log db ++ [entry]
          /\ In row (phonebook db)
          /\ PhoneBook.phone_number row = phone_number
          /\ phonebook db' = delete_person row (phonebook db)
          /\ ~ In row (phonebook db')
          /\ AuditLog.action entry = "delete-by-number"
          /\ AuditLog.full_name entry = Some (PhoneBook.full_name row)
          /\ AuditLog.phone_number entry = Some phone_number).
Proof.
  split; [|split].
  - intros person H. unfold add_person in H.
    destruct (validate_full_name _); [|discriminate].
    destruct (validate_phone_number _); [|discriminate].
    cbn [negb] in H. cbv zeta in H.
    destruct (first_by PhoneBook.phone_number _ _); [discriminate|].
    destruct (first_by PhoneBook.full_name _ _); [discriminate|].
    inversion H; subst; clear H. cbn [audit_log phonebook].
    unfold insert_audit, insert_person.
    eexists. eexists. split; [reflexivity|]. split; [reflexivity|].
    cbn. repeat split.
  - intros full_name H. unfold delete_by_name in H.
    destruct (validate_full_name _); [|discriminate].
    cbn [negb] in H.
    destruct (first_by PhoneBook.full_name _ _) as [row|] eqn:E;
      [|discriminate].
    apply first_by_some in E. destruct E as [Hin Hname].
    inversion H; subst; clear H. cbn [audit_log phonebook].
    unfold insert_audit.
    eexists. exists row. split; [reflexivity|].
    cbn. repeat split; auto using delete_person_removes.
  - intros phone_number H. unfold delete_by_number in H.
    destruct (validate_phone_number _); [|discriminate].
    cbn [negb] in H.
    destruct (first_by PhoneBook.phone_number _ _) as [row|] eqn:E;
      [|discriminate].
    apply first_by_some in E. destruct E as [Hin Hnumber].
    inversion H; subst; clear H. cbn [audit_log phonebook].
    unfold insert_audit.
    eexists. exists row. split; [reflexivity|].
    cbn. repeat split; auto using delete_person_removes.
Qed.

Lemma audit_on_success_witness :
  (add_person 1 john empty_db = (one_contact_db, Ok "Person added successfully")
   /\ exists entry,
        audit_log one_contact_db = audit_log empty_db ++ [entry]
        /\ AuditLog.action entry = "add"
        /\ AuditLog.full_name entry = Some "John Smith"
        /\ AuditLog.phone_number entry = Some "+1 555-1234")
  /\ (let db' := fst (delete_by_name 2 "John Smith" one_contact_db) in
      delete_by_name 2 "John Smith" one_contact_db
      = (db', Ok "Person deleted successfully")
      /\ exists entry,
           audit_log db' = audit_log one_contact_db ++ [entry]
           /\ AuditLog.action entry = "delete-by-name"
           /\ AuditLog.full_name entry = Some "John Smith"
           /\ AuditLog.phone_number entry = Some "+1 555-1234")
  /\ (let db' := fst (delete_by_number 2 "+1 555-1234" one_contact_db) in
      delete_by_number 2 "+1 555-1234" one_contact_db
      = (db', Ok "Person deleted successfully")
      /\ exists entry,
           audit_log db' = audit_log one_contact_db ++ [entry]
           /\ AuditLog.action entry = "delete-by-number"
           /\ AuditLog.full_name entry = Some "John Smith"
           /\ AuditLog.phone_number entry = Some "+1 555-1234").
Proof.
  split; [|split].
  - split; [reflexivity|].
    destruct (proj1 (audit_on_success 1 empty_db one_contact_db
                       "Person added successfully") john eq_refl)
      as [entry [row [H1 [_ [_ [_ [H2 [H3 H4]]]]]]]].
    exists entry. repeat split; assumption.
  - cbv zeta. split; [reflexivity|].
    destruct (proj1 (proj2 (audit_on_success 2 one_contact_db
                              (fst (delete_by_name 2 "John Smith"
                                      one_contact_db))
                              "Person deleted successfully"))
                "John Smith" eq_refl)
      as [entry [row [H1 [Hin [Hname [_ [_ [H2 [H3 H4]]]]]]]]].
    exists entry. repeat split; try assumption.
    rewrite H4. destruct Hin as [<-|[]]. reflexivity.
  - cbv zeta. split; [reflexivity|].
    destruct (proj2 (proj2 (audit_on_success 2 one_contact_db
                              (fst (delete_by_number 2 "+1 555-1234"
                                      one_contact_db))
                              "Person deleted successfully"))
                "+1 555-1234" eq_refl)
      as [entry [row [H1 [Hin [Hnumber [_ [_ [H2 [H3 H4]]]]]]]]].
    exists entry. repeat split; try assumption.
    rewrite H3. destruct Hin as [<-|[]]. reflexivity.
Defined.

(** C7: whatever the contact store holds, the list handler returns all of
    it, leaves it as it is, and appends exactly one audit row with action
    "list" and no name and no number. *)
Theorem list_phonebook_audits (now : Z) (db : DB) :
  exists entry,
    list_phonebook now db
    = (mkDB (phonebook db) (audit_log db ++ [entry]), Ok (phonebook db))
    /\ AuditLog.action entry = "list"
    /\ AuditLog.full_name entry = None
    /\ AuditLog.phone_number entry = None.
Proof.
  unfold list_phonebook, insert_audit. cbv zeta.
  eexists. split; [reflexivity|]. cbn. repeat split.
Qed.

Lemma add_person_exception (now : Z) (person : Person.t) (db db' : DB)
    (status_code : Z) (detail : string) :
  add_person now person db = (db', HTTPException status_code detail) ->
  status_code = 400%Z /\ db' = db.
Proof.
  unfold add_person. cbv zeta.
  destruct (validate_full_name _); cbn [negb].
  2:{ intros H. inversion H. auto. }
  destruct (validate_phone_number _); cbn [negb].
  2:{ intros H. inversion H. auto. }
  destruct (first_by PhoneBook.phone_number _ _).
  { intros H. inversion H. auto. }
  destruct (first_by PhoneBook.full_name _ _).
  { intros H. inversion H. auto. }
  discriminate.
Qed.

(** C4: an add that fails, for a malformed name, a malformed number, a
    number already stored or a name already stored, answers 400 and
    leaves both stores as they were: no contact is inserted and no audit
    row is written. *)
Theorem add_person_failure (now : Z) (person : Person.t) (db : DB) :
  (validate_full_name (Person.full_name person) = false
   \/ validate_phone_number (Person.phone_number person) = false
   \/ In (Person.phone_number person) (numbers db)
   \/ In (Person.full_name person) (names db) ->
   exists detail, add_person now person db = (db, HTTPException 400 detail))
  /\ (forall db' status_code detail,
        add_person now person db = (db', HTTPException status_code detail) ->
        status_code = 400%Z /\ db' = db
        /\ (validate_full_name (Person.full_name person) = false
            \/ validate_phone_number (Person.phone_number person) = false
            \/ In (Person.phone_number person) (numbers db)
            \/ In (Person.full_name person) (names db))).
Proof.
  unfold add_person, numbers, names. cbv zeta.
  destruct (validate_full_name _) eqn:Hname; cbn [negb].
  2:{ split.
      - intros _. eexists. reflexivity.
      - intros db' c dt H. inversion H; subst. auto. }
  destruct (validate_phone_number _) eqn:Hnumber; cbn [negb].
  2:{ split.
      - intros _. eexists. reflexivity.
      - intros db' c dt H. inversion H; subst. auto. }
  destruct (first_by PhoneBook.phone_number _ _) as [row|] eqn:E1.
  { split.
    - intros _. eexists. reflexivity.
    - intros db' c dt H. inversion H; subst.
      apply first_by_some in E1. destruct E1 as [Hin Heq].
      repeat split. right. right. left.
      rewrite <- Heq. now apply in_map. }
  destruct (first_by PhoneBook.full_name _ _) as [row|] eqn:E2.
  { split.
    - intros _. eexists. reflexivity.
    - intros db' c dt H. inversion H; subst.
      apply first_by_some in E2. destruct E2 as [Hin Heq].
      repeat split. right. right. right.
      rewrite <- Heq. now apply in_map. }
  split.
  - apply first_by_none in E1. apply first_by_none in E2.
    intros [H|[H|[H|H]]]; try discriminate; contradiction.
  - intros db' c dt H. discriminate.
Qed.

Lemma add_person_failure_witness :
  (validate_full_name "L33t Hacker" = false
   /\ exists detail,
        add_person 1 (Person.mk "L33t Hacker" "12345") empty_db
        = (empty_db, HTTPException 400 detail))
  /\ (add_person 2 (Person.mk "John Smith" "+1 555-5678") one_contact_db
      = (one_contact_db,
         HTTPException 400 "Person already exists in the database")
      /\ In "John Smith" (names one_contact_db)).
Proof.
  split.
  - split; [reflexivity|].
    apply (proj1 (add_person_failure 1 (Person.mk "L33t Hacker" "12345")
                    empty_db)).
    left. reflexivity.
  - split; [reflexivity|].
    destruct (proj2 (add_person_failure 2
                       (Person.mk "John Smith" "+1 555-5678") one_contact_db)
                one_contact_db 400%Z
                "Person already exists in the database" eq_refl)
      as [_ [_ [H|[H|[H|H]]]]].
    + discriminate H.
    + discriminate H.
    + destruct H as [H|[]]. discriminate H.
    + exact H.
Defined.

(** C5: deleting by a well-formed name, or by a well-formed number, that
    no contact has answers 404 and leaves both stores as they were. *)
Theorem delete_not_found (now : Z) (db : DB) :
  (forall full_name,
     validate_full_name full_name = true ->
     ~ In full_name (names db) ->
     delete_by_name now full_name db
     = (db, HTTPException 404 "Person not found in the database"))
  /\ (forall phone_number,
        validate_phone_number phone_number = true ->
        ~ In phone_number (numbers db) ->
        delete_by_number now phone_number db
        = (db, HTTPException 404 "Person not found in the database")).
Proof.
  split.
  - intros full_name Hv Hno. unfold delete_by_name. rewrite Hv. cbn [negb].
    apply first_by_none in Hno. unfold names in Hno. now rewrite Hno.
  - intros phone_number Hv Hno. unfold delete_by_number. rewrite Hv.
    cbn [negb].
    apply first_by_none in Hno. unfold numbers in Hno. now rewrite Hno.
Qed.

Lemma delete_not_found_witness :
  (validate_full_name "Bruce Schneier" = true
   /\ ~ In "Bruce Schneier" (names one_contact_db)
   /\ delete_by_name 2 "Bruce Schneier" one_contact_db
      = (one_contact_db,
         HTTPException 404 "Person not found in the database"))
  /\ (validate_phone_number "(703)111-2121" = true
      /\ ~ In "(703)111-2121" (numbers one_contact_db)
      /\ delete_by_number 2 "(703)111-2121" one_contact_db
         = (one_contact_db,
            HTTPException 404 "Person not found in the database")).
Proof.
  assert (H1 : ~ In "Bruce Schneier" (names one_contact_db)).
  { intros [H|[]]. discriminate H. }
  assert (H2 : ~ In "(703)111-2121" (numbers one_contact_db)).
  { intros [H|[]]. discriminate H. }
  split.
  - split; [reflexivity|]. split; [exact H1|].
    exact (proj1 (delete_not_found 2 one_contact_db) "Bruce Schneier"
             eq_refl H1).
  - split; [reflexivity|]. split; [exact H2|].
    exact (proj2 (delete_not_found 2 one_contact_db) "(703)111-2121"
             eq_refl H2).
Defined.

Lemma add_person_number_conflict (now : Z) (person : Person.t) (db : DB) :
  validate_full_name (Person.full_name person) = true ->
  validate_phone_number (Person.phone_number person) = true ->
  In (Person.phone_number person) (numbers db) ->
  add_person now person db
  = (db, HTTPException 400 "Phone number already exists in the database").
Proof.
  intros Hname Hnumber Hin. unfold add_person. rewrite Hname, Hnumber.
  cbn [negb]. cbv zeta.
  destruct (first_by_present _ _ _ Hin) as [row ->]. reflexivity.
Qed.

Lemma add_person_name_conflict (now : Z) (person : Person.t) (db : DB) :
  validate_full_name (Person.full_name person) = true ->
  validate_phone_number (Person.phone_number person) = true ->
  ~ In (Person.phone_number person) (numbers db) ->
  In (Person.full_name person) (names db) ->
  add_person now person db
  = (db, HTTPException 400 "Person already exists in the database").
Proof.
  intros Hname Hnumber Hno Hin. unfold add_person. rewrite Hname, Hnumber.
  cbn [negb]. cbv zeta.
  apply first_by_none in Hno. unfold numbers in Hno. rewrite Hno.
  destruct (first_by_present _ _ _ Hin) as [row ->]. reflexivity.
Qed.

Lemma add_person_success (now : Z) (person : Person.t) (db db' : DB)
    (body : string) :
  add_person now person db = (db', Ok body) ->
  validate_full_name (Person.full_name person) = true
  /\ validate_phone_number (Person.phone_number person) = true
  /\ ~ In (Person.phone_number person) (numbers db)
  /\ ~ In (Person.full_name person) (names db)
  /\ phonebook db'
     = insert_person (Person.full_name person) (Person.phone_number person)
         (phonebook db).
Proof.
  unfold add_person. intros H.
  destruct (validate_full_name _); [|discriminate].
  destruct (validate_phone_number _); [|discriminate].
  cbn [negb] in H. cbv zeta in H.
  destruct (first_by PhoneBook.phone_number _ _) eqn:E1; [discriminate|].
  destruct (first_by PhoneBook.full_name _ _) eqn:E2; [discriminate|].
  apply first_by_none in E1. apply first_by_none in E2.
  inversion H; subst. repeat split; assumption.
Qed.

(** C6: after a successful add of a name and a number, a further add
    with that number is refused with 400 "Phone number already exists in
    the database", and a further add with that name (and a number not yet
    stored) with 400 "Person already exists in the database"; when both the
    number and the name are stored the number is checked first, and the
    answer is the one about the phone number. *)
Theorem add_twice_conflict (now : Z) (person : Person.t) (db db' : DB)
    (body : string) :
  add_person now person db = (db', Ok body) ->
  (forall now' full_name,
     validate_full_name full_name = true ->
     add_person now' (Person.mk full_name (Person.phone_number person)) db'
     = (db',
        HTTPException 400 "Phone number already exists in the database"))
  /\ (forall now' phone_number,
        validate_phone_number phone_number = true ->
        ~ In phone_number (numbers db') ->
        add_person now' (Person.mk (Person.full_name person) phone_number)
          db'
        = (db', HTTPException 400 "Person already exists in the database"))
  /\ (forall now' other store,
        validate_full_name (Person.full_name other) = true ->
        validate_phone_number (Person.phone_number other) = true ->
        In (Person.phone_number other) (numbers store) ->
        In (Person.full_name other) (names store) ->
        add_person now' other store
        = (store,
           HTTPException 400 "Phone number already exists in the database")).
Proof.
  intros H. apply add_person_success in H.
  destruct H as [Hname [Hnumber [_ [_ Hpb]]]].
  assert (Hin_number : In (Person.phone_number person) (numbers db')).
  { unfold numbers, insert_person in *. rewrite Hpb, map_app, in_app_iff.
    right. now left. }
  assert (Hin_name : In (Person.full_name person) (names db')).
  { unfold names, insert_person in *. rewrite Hpb, map_app, in_app_iff.
    right. now left. }
  split; [|split].
  - intros now' full_name Hv. now apply add_person_number_conflict.
  - intros now' phone_number Hv Hno. now apply add_person_name_conflict.
  - intros now' other store Hv1 Hv2 Hin1 Hin2.
    now apply add_person_number_conflict.
Qed.

Lemma add_twice_conflict_witness :
  add_person 1 john empty_db = (one_contact_db, Ok "Person added successfully")
  /\ add_person 2 john one_contact_db
     = (one_contact_db,
        HTTPException 400 "Phone number already exists in the database")
  /\ add_person 2 (Person.mk "Bruce Schneier" "+1 555-1234") one_contact_db
     = (one_contact_db,
        HTTPException 400 "Phone number already exists in the database")
  /\ add_person 2 (Person.mk "John Smith" "+1 555-5678") one_contact_db
     = (one_contact_db,
        HTTPException 400 "Person already exists in the database").
Proof.
  pose proof (add_twice_conflict 1 john empty_db one_contact_db
                "Person added successfully" eq_refl) as [H1 [H2 H3]].
  split; [reflexivity|]. split; [|split].
  - apply (H3 2%Z john one_contact_db); try reflexivity; now left.
  - apply (H1 2%Z "Bruce Schneier"). reflexivity.
  - apply (H2 2%Z "+1 555-5678"); [reflexivity|].
    intros [H|[]]. discriminate H.
Defined.

Lemma serve_unique (now : Z) (req : request) (db : DB) :
  unique db -> unique (serve now req db).
Proof.
  intros [Hn Hp]. destruct req as [|person|full_name|phone_number]; simpl.
  - split; assumption.
  - destruct (add_person now person db) as [db' [body|c dt]] eqn:E.
    + apply add_person_success in E.
      destruct E as [_ [_ [Hno_p [Hno_n Hpb]]]].
      unfold unique, names, numbers, insert_person in *. simpl.
      rewrite Hpb, !map_app. simpl.
      split; apply NoDup_snoc; assumption.
    + apply add_person_exception in E.
      destruct E as [_ ->]. simpl. split; assumption.
  - unfold delete_by_name.
    destruct (validate_full_name full_name); cbn [negb]; [|now split].
    destruct (first_by _ _ _) as [row|]; [|now split].
    unfold unique, names, numbers, delete_person in *. simpl.
    split; now apply NoDup_map_filter.
  - unfold delete_by_number.
    destruct (validate_phone_number phone_number); cbn [negb]; [|now split].
    destruct (first_by _ _ _) as [row|]; [|now split].
    unfold unique, names, numbers, delete_person in *. simpl.
    split; now apply NoDup_map_filter.
Qed.

(** C8: starting from a store where no two contacts share a name and no
    two share a number, every store reached by handling list, add,
    delete-by-name and delete-by-number requests one after another is such
    a store again. *)
Theorem run_unique (db : DB) :
  unique db -> forall reqs, unique (run reqs db).
Proof.
  intros H reqs. revert db H. unfold run.
  induction reqs as [|[now req] reqs IH]; intros db H; simpl.
  - exact H.
  - apply IH. now apply serve_unique.
Qed.

Lemma run_unique_witness :
  unique empty_db
  /\ unique (run [ (1%Z, PostAdd john);
                   (2%Z, PostAdd (Person.mk "John Smith" "+1 555-5678"));
                   (3%Z, PostAdd (Person.mk "Bruce Schneier" "+1 555-1234"));
                   (4%Z, PostAdd (Person.mk "Bruce Schneier" "(703)111-2121"));
                   (5%Z, GetList);
                   (6%Z, PutDeleteByNumber "+1 555-1234");
                   (7%Z, PutDeleteByName "Bruce Schneier") ] empty_db).
Proof.
  assert (H : unique empty_db) by (split; constructor).
  split; [exact H|]. apply (run_unique empty_db H).
Defined.

(** * More on the validators *)

Lemma ends_with_eol_spec (total : nat) (r : re) :
  ends_with_eol r = true ->
  forall s s', den total r s s' -> at_eol s' = true.
Proof.
  induction r as [| |a|r1 IH1 r2 IH2|r1 IH1 r2 IH2|lo hi r0 IH|r0 IH|r0 IH];
    simpl; intros E s s' H; try discriminate.
  - destruct H as [H ->]. exact H.
  - destruct H as [t [_ H]]. now apply (IH2 E t s').
Qed.

Lemma count_none_Forall (allowed : ascii -> bool) (s : chars) :
  count (fun c => negb (allowed c)) s = 0 <->
  Forall (fun c => allowed c = true) s.
Proof.
  unfold count. induction s as [|c s IH]; simpl.
  - split; [constructor|reflexivity].
  - destruct (allowed c) eqn:E; simpl.
    + rewrite IH. split; [now constructor|]. intros H. now inversion H.
    + split; [discriminate|]. intros H. inversion H. congruence.
Qed.

(** What a pattern that ends in [$] accepts is made of the characters its
    atoms allow, up to a final line feed. *)
Lemma re_match_alphabet (allowed : ascii -> bool) (pattern : re)
    (subject : string) :
  avoids (fun c => negb (allowed c)) pattern = true ->
  ends_with_eol pattern = true ->
  allowed newline = true ->
  re_match pattern subject = true ->
  Forall (fun c => allowed c = true) (list_ascii_of_string subject).
Proof.
  intros Hav Heol Hnl H. apply re_match_den in H.
  destruct H as [u [s' [Hu H]]]. rewrite Hu.
  pose proof (ends_with_eol_spec _ _ Heol _ _ H) as Hs'.
  apply (den_bounds (fun c => negb (allowed c))) in H.
  destruct H as [_ [H _]]. specialize (H Hav).
  apply count_none_Forall in H. apply Forall_app. split; [exact H|].
  apply at_eol_inv in Hs'. destruct Hs' as [-> | ->]; repeat constructor.
  exact Hnl.
Qed.

(** X1: a phone number that [validate_phone_number] accepts is made only
    of digits, white space and the five characters + ( ) . - *)
Theorem validate_phone_number_alphabet (phone_number : string) :
  validate_phone_number phone_number = true ->
  Forall (fun c => phone_char c = true) (list_ascii_of_string phone_number).
Proof.
  apply re_match_alphabet; reflexivity.
Qed.

Lemma validate_phone_number_alphabet_witness :
  validate_phone_number "+1(703)111-2121" = true
  /\ Forall (fun c => phone_char c = true)
       (list_ascii_of_string "+1(703)111-2121").
Proof.
  split; [reflexivity|].
  apply (validate_phone_number_alphabet "+1(703)111-2121"). reflexivity.
Defined.

(** X2: a name that [validate_full_name] accepts is made only of the
    letters A-Z and a-z, white space and the four characters , ' . - *)
Theorem validate_full_name_alphabet (name : string) :
  validate_full_name name = true ->
  Forall (fun c => name_char c = true) (list_ascii_of_string name).
Proof.
  apply re_match_alphabet; reflexivity.
Qed.

Lemma validate_full_name_alphabet_witness :
  validate_full_name "O'Malley, John F." = true
  /\ Forall (fun c => name_char c = true)
       (list_ascii_of_string "O'Malley, John F.").
Proof.
  split; [reflexivity|].
  apply (validate_full_name_alphabet "O'Malley, John F."). reflexivity.
Defined.

(** X3: a phone number that [validate_phone_number] accepts has between 5
    and 33 characters. *)
Theorem validate_phone_number_length (phone_number : string) :
  validate_phone_number phone_number = true ->
  5 <= String.length phone_number <= 33.
Proof.
  unfold validate_phone_number. intros H.
  apply re_match_den in H. destruct H as [u [s' [Hu H]]].
  rewrite <- length_list_ascii_of_string, Hu, length_app.
  pose proof (ends_with_eol_spec _ phone_number_pattern eq_refl _ _ H)
    as Hs'.
  apply (den_bounds (fun _ => true)) in H.
  destruct H as [Hlo [_ Hhi]]. specialize (Hhi 32 eq_refl).
  change (at_least (fun _ => true) phone_number_pattern) with 5 in Hlo.
  rewrite count_all in Hlo.
  apply at_eol_inv in Hs'. destruct Hs' as [-> | ->]; simpl; lia.
Qed.

Lemma validate_phone_number_length_witness :
  (validate_phone_number "12345" = true /\ 5 <= String.length "12345" <= 33)
  /\ (validate_phone_number
        (with_newline "+123 (123).12345 12345 123456789") = true
      /\ String.length (with_newline "+123 (123).12345 12345 123456789")
         = 33).
Proof.
  split.
  - split; [reflexivity|].
    apply (validate_phone_number_length "12345"). reflexivity.
  - split; [reflexivity|].
    pose proof (validate_phone_number_length
                  (with_newline "+123 (123).12345 12345 123456789")
                  eq_refl) as _.
    reflexivity.
Defined.

(** Where a part of a match stops, the part before it is a prefix of
    what the whole consumed. *)
Lemma split_consumed (u s' t v : chars) (w : chars) :
  u ++ s' = w ++ t -> t = v ++ s' -> u = w ++ v.
Proof.
  intros H ->. rewrite app_assoc in H. now apply app_inv_tail in H.
Qed.

Lemma den_split (total : nat) (r : re) (u s' t : chars) :
  den total r (u ++ s') t ->
  (exists v, t = v ++ s') ->
  exists w v, u = w ++ v /\ t = v ++ s'
              /\ den total r (w ++ v ++ s') (v ++ s').
Proof.
  intros H [v Hv]. destruct (den_consumes _ _ _ _ H) as [w Hw].
  pose proof (split_consumed _ _ _ _ _ Hw Hv) as Hu.
  exists w, v. repeat split; [exact Hu|exact Hv|].
  subst t u. now rewrite <- app_assoc in H.
Qed.

Lemma starts_spec (p : ascii -> bool) (total : nat) (r : re) :
  starts p r = true ->
  forall u s', den total r (u ++ s') s' ->
    exists c u', u = c :: u' /\ p c = true.
Proof.
  induction r as [| |a|r1 IH1 r2 IH2|r1 IH1 r2 IH2|lo hi r0 IH|r0 IH|r0 IH];
    simpl; intros E u s' H; try discriminate.
  - destruct H as [c [Heq Hm]].
    assert (u = [c]) as -> by (apply (app_inv_tail s'); exact Heq).
    exists c, []. split; [reflexivity|].
    exact (atom_within_spec p a c E Hm).
  - destruct H as [t [H1 H2]].
    destruct (den_split _ _ _ _ _ H1 (den_consumes _ _ _ _ H2))
      as [w [v [-> [_ H]]]].
    destruct (IH1 E _ _ H) as [c [w' [-> Hc]]].
    exists c, (w' ++ v). auto.
  - apply andb_true_iff in E. destruct E as [E1 E2].
    destruct H as [H|H]; eauto.
  - apply andb_true_iff in E. destruct E as [Elo E].
    destruct lo as [|lo]; [discriminate|].
    destruct H as [n [Hn [_ Hit]]].
    destruct n as [|n]; [lia|]. simpl in Hit.
    destruct Hit as [t [H1 H2]].
    destruct (den_split _ _ _ _ _ H1
                (iter_consumes _ (den_consumes total r0) _ _ _ H2))
      as [w [v [-> [_ H]]]].
    destruct (IH E _ _ H) as [c [w' [-> Hc]]].
    exists c, (w' ++ v). auto.
Qed.

(** X4: a name that [validate_full_name] accepts starts with a letter. *)
Theorem validate_full_name_starts_with_letter (name : string) :
  validate_full_name name = true ->
  exists c rest,
    list_ascii_of_string name = c :: rest /\ is_alpha c = true.
Proof.
  intros H. apply validate_full_name_inv in H.
  destruct H as [u [s' [Hu [_ [_ Halt]]]]].
  apply Exists_exists in Halt. destruct Halt as [alt [Hin Hden]].
  assert (Hst : starts is_alpha alt = true).
  { assert (Hall : forallb (starts is_alpha) name_alternatives = true)
      by reflexivity.
    rewrite forallb_forall in Hall. now apply Hall. }
  destruct (starts_spec _ _ _ Hst _ _ Hden) as [c [u' [-> Hc]]].
  exists c, (u' ++ s'). split; [exact Hu|exact Hc].
Qed.

Lemma validate_full_name_starts_with_letter_witness :
  validate_full_name "Schneier, Bruce" = true
  /\ exists c rest,
       list_ascii_of_string "Schneier, Bruce" = c :: rest
       /\ is_alpha c = true.
Proof.
  split; [reflexivity|].
  apply (validate_full_name_starts_with_letter "Schneier, Bruce").
  reflexivity.
Defined.

(** ** A final line feed *)

Section Frame.

Variables total total' : nat.

Lemma iter_frame (R R' : chars -> chars -> Prop) :
  (forall s s', R s s' -> exists u, s = u ++ s') ->
  (forall u s1 s2, R (u ++ s1) s1 -> R' (u ++ s2) s2) ->
  forall n u s1 s2, iter R n (u ++ s1) s1 -> iter R' n (u ++ s2) s2.
Proof.
  intros Hc HR n. induction n as [|n IH]; intros u s1 s2 H; simpl in H |- *.
  - assert (u = []) as -> by (apply (app_inv_tail s1); exact (eq_sym H)).
    reflexivity.
  - destruct H as [t [H1 H2]].
    destruct (iter_consumes R Hc _ _ _ H2) as [v ->].
    destruct (Hc _ _ H1) as [w Hw].
    rewrite app_assoc in Hw. apply app_inv_tail in Hw. subst u.
    rewrite <- app_assoc in H1 |- *.
    exists (v ++ s2). split.
    + apply (HR w (v ++ s1)). exact H1.
    + apply (IH v s1). exact H2.
Qed.

(** A plain pattern matches the same characters whatever follows them. *)
Lemma plain_frame (r : re) :
  plain r = true ->
  forall u s1 s2, den total r (u ++ s1) s1 -> den total' r (u ++ s2) s2.
Proof.
  induction r as [| |a|r1 IH1 r2 IH2|r1 IH1 r2 IH2|lo hi r0 IH|r0 IH|r0 IH];
    simpl; intros E u s1 s2 H; try discriminate.
  - destruct H as [c [Heq Hm]].
    assert (u = [c]) as -> by (apply (app_inv_tail s1); exact Heq).
    exists c. auto.
  - apply andb_true_iff in E. destruct E as [E1 E2].
    destruct H as [t [H1 H2]].
    destruct (den_split _ _ _ _ _ H1 (den_consumes _ _ _ _ H2))
      as [w [v [-> [-> H]]]].
    exists (v ++ s2). rewrite <- app_assoc. split.
    + apply (IH1 E1 w (v ++ s1)). exact H.
    + apply (IH2 E2 v s1). exact H2.
  - apply andb_true_iff in E. destruct E as [E1 E2].
    destruct H as [H|H]; [left; now apply (IH1 E1 u s1)
                         |right; now apply (IH2 E2 u s1)].
  - destruct H as [n [Hlo [Hhi H]]]. exists n. repeat split; try assumption.
    exact (iter_frame _ _ (den_consumes total r0) (IH E) n u s1 s2 H).
Qed.

(** So does a plain pattern followed by [$], between two places where
    [$] holds. *)
Lemma plain_eol_frame (r : re) :
  plain_eol r = true ->
  forall u s1 s2, at_eol s2 = true ->
    den total r (u ++ s1) s1 -> den total' r (u ++ s2) s2.
Proof.
  induction r as [| |a|r1 IH1 r2 IH2|r1 IH1 r2 IH2|lo hi r0 IH|r0 IH|r0 IH];
    simpl; intros E u s1 s2 Hs2 H; try discriminate.
  - destruct H as [_ H].
    assert (u = []) as -> by (apply (app_inv_tail s1); exact (eq_sym H)).
    auto.
  - apply andb_true_iff in E. destruct E as [E1 E2].
    destruct H as [t [H1 H2]].
    destruct (den_split _ _ _ _ _ H1 (den_consumes _ _ _ _ H2))
      as [w [v [-> [-> H]]]].
    exists (v ++ s2). rewrite <- app_assoc.
    split.
    + apply (plain_frame r1 E1 w (v ++ s1)). exact H.
    + apply (IH2 E2 v s1 s2 Hs2). exact H2.
Qed.

(** A plain pattern that consumes no line feed and matches at the start
    of [s] followed by a line feed matches at the start of [s]. *)
Lemma plain_before_newline (r : re) (s t : chars) :
  plain r = true ->
  avoids (Ascii.eqb newline) r = true ->
  den total r (s ++ [newline]) t ->
  exists t', den total' r s t'.
Proof.
  intros Hp Hav H. destruct (den_consumes _ _ _ _ H) as [w Hw].
  induction t as [|x t' _] using rev_ind.
  - exfalso. rewrite app_nil_r in Hw. subst w.
    rewrite <- (app_nil_r (s ++ [newline])) in H at 1.
    apply (den_bounds (Ascii.eqb newline)) in H.
    destruct H as [_ [H _]]. specialize (H Hav).
    rewrite count_app in H. vm_compute count at 2 in H. lia.
  - rewrite app_assoc in Hw. apply app_inj_tail in Hw.
    destruct Hw as [-> <-]. exists t'.
    rewrite <- app_assoc in H.
    exact (plain_frame r Hp w (t' ++ [newline]) t' H).
Qed.

End Frame.

Lemma list_ascii_of_with_newline (s : string) :
  list_ascii_of_string (with_newline s) = list_ascii_of_string s ++ [newline].
Proof.
  unfold with_newline. induction s as [|c s IH]; simpl;
    [reflexivity|now rewrite IH].
Qed.

Lemma plain_eol_ends (r : re) : plain_eol r = true -> ends_with_eol r = true.
Proof.
  induction r; simpl; intros E; try discriminate; [reflexivity|].
  apply andb_true_iff in E. destruct E. auto.
Qed.

(** What a pattern that ends in [$] matched when the subject has no final
    line feed: all of the subject. *)
Lemma matched_to_the_end (total : nat) (r : re) (u s' : chars) :
  ends_with_eol r = true ->
  ~ ends_with_newline (u ++ s') ->
  den total r (u ++ s') s' -> s' = [].
Proof.
  intros E Hno H. apply (ends_with_eol_spec _ _ E) in H.
  apply at_eol_inv in H. destruct H as [-> | ->]; [reflexivity|].
  exfalso. apply Hno. now exists u.
Qed.

(** [^(?!g)body$] *)
Lemma guarded_newline (g body : re) (subject : string) :
  plain g = true -> avoids (Ascii.eqb newline) g = true ->
  plain_eol body = true ->
  ~ ends_with_newline (list_ascii_of_string subject) ->
  re_match (Bol ;; NLook g ;; body) subject = true ->
  re_match (Bol ;; NLook g ;; body) (with_newline subject) = true.
Proof.
  intros Hg Hav Hb Hno H. apply re_match_den in H.
  destruct H as [u [s' [Hu H]]]. rewrite Hu in Hno.
  cbn [den] in H.
  destruct H as [t1 [[_ E1] [t2 [[Hguard E2] Hbody]]]]. subst t1 t2.
  pose proof (matched_to_the_end _ _ _ _ (plain_eol_ends _ Hb) Hno Hbody).
  subst s'.
  apply re_match_den. exists u, [newline].
  rewrite list_ascii_of_with_newline, Hu, <- app_assoc. simpl app.
  split; [reflexivity|]. cbn [den].
  exists (u ++ [newline]). split; [split; reflexivity|].
  exists (u ++ [newline]). split; [split; [|reflexivity]|].
  - intros [t Ht]. apply Hguard.
    rewrite app_nil_r.
    exact (plain_before_newline (List.length (u ++ [newline])) _ g u t
             Hg Hav Ht).
  - exact (plain_eol_frame _ _ body Hb u [] [newline] eq_refl Hbody).
Qed.

(** [^(?=l$)body$] *)
Lemma looked_newline (l body : re) (subject : string) :
  plain_eol l = true -> plain_eol body = true ->
  ~ ends_with_newline (list_ascii_of_string subject) ->
  re_match (Bol ;; Look l ;; body) subject = true ->
  re_match (Bol ;; Look l ;; body) (with_newline subject) = true.
Proof.
  intros Hl Hb Hno H. apply re_match_den in H.
  destruct H as [u [s' [Hu H]]]. rewrite Hu in Hno.
  cbn [den] in H.
  destruct H as [t1 [[_ E1] [t2 [[[t Hlook] E2] Hbody]]]]. subst t1 t2.
  pose proof (matched_to_the_end _ _ _ _ (plain_eol_ends _ Hb) Hno Hbody).
  subst s'.
  destruct (den_consumes _ _ _ _ Hlook) as [w Hw].
  rewrite Hw in Hlook, Hno.
  pose proof (matched_to_the_end _ _ _ _ (plain_eol_ends _ Hl) Hno Hlook).
  subst t. rewrite !app_nil_r in Hw. subst w.
  apply re_match_den. exists u, [newline].
  rewrite list_ascii_of_with_newline, Hu, <- app_assoc. simpl app.
  split; [reflexivity|]. cbn [den].
  exists (u ++ [newline]). split; [split; reflexivity|].
  exists (u ++ [newline]). split; [split; [|reflexivity]|].
  - exists [newline].
    exact (plain_eol_frame _ _ l Hl u [] [newline] eq_refl Hlook).
  - exact (plain_eol_frame _ _ body Hb u [] [newline] eq_refl Hbody).
Qed.

(** X5: a string that does not end in a line feed and that
    [validate_phone_number] (or [validate_full_name]) accepts is accepted
    as well when one line feed is put after it. *)
Theorem validators_accept_final_newline (subject : string) :
  ~ ends_with_newline (list_ascii_of_string subject) ->
  (validate_phone_number subject = true ->
   validate_phone_number (with_newline subject) = true)
  /\ (validate_full_name subject = true ->
      validate_full_name (with_newline subject) = true).
Proof.
  intros Hno. split.
  - apply guarded_newline; [reflexivity..|exact Hno].
  - apply looked_newline; [reflexivity..|exact Hno].
Qed.

Lemma not_ends_with_newline (s : chars) :
  last s "a"%char <> newline -> ~ ends_with_newline s.
Proof.
  intros H [u ->]. apply H. apply last_last.
Qed.

Lemma validators_accept_final_newline_witness :
  (validate_phone_number "12345" = true
   /\ validate_phone_number (with_newline "12345") = true)
  /\ (validate_full_name "John Smith" = true
      /\ validate_full_name (with_newline "John Smith") = true).
Proof.
  assert (H1 : ~ ends_with_newline (list_ascii_of_string "12345")).
  { apply not_ends_with_newline. simpl. intros H. discriminate H. }
  assert (H2 : ~ ends_with_newline (list_ascii_of_string "John Smith")).
  { apply not_ends_with_newline. simpl. intros H. discriminate H. }
  split.
  - split; [reflexivity|].
    apply (proj1 (validators_accept_final_newline "12345" H1)).
    reflexivity.
  - split; [reflexivity|].
    apply (proj2 (validators_accept_final_newline "John Smith" H2)).
    reflexivity.
Defined.

(** * More on the handlers *)

Lemma next_id_above (ids : list Z) (x : Z) : In x ids -> (x < next_id ids)%Z.
Proof.
  unfold next_id. induction ids as [|y ids IH]; cbn [fold_right In];
    [tauto|].
  intros [->|H]; [lia|]. specialize (IH H). lia.
Qed.

Lemma next_id_fresh (ids : list Z) : ~ In (next_id ids) ids.
Proof. intros H. apply next_id_above in H. lia. Qed.

Lemma NoDup_map_same {A B : Type} (f : A -> B) (l : list A) (a b : A) :
  NoDup (map f l) -> In a l -> In b l -> f a = f b -> a = b.
Proof.
  induction l as [|x l IH]; simpl; intros Hnd Ha Hb Heq; [contradiction|].
  inversion Hnd as [|? ? Hx Hl]; subst.
  destruct Ha as [->|Ha], Hb as [->|Hb]; auto.
  - exfalso. apply Hx. rewrite Heq. now apply in_map.
  - exfalso. apply Hx. rewrite <- Heq. now apply in_map.
Qed.

Lemma first_by_found (column : PhoneBook.t -> string)
    (rows : list PhoneBook.t) (row : PhoneBook.t) :
  NoDup (map column rows) -> In row rows ->
  first_by column (column row) rows = Some row.
Proof.
  intros Hnd Hin.
  destruct (first_by_present column (column row) rows (in_map _ _ _ Hin))
    as [row' E].
  rewrite E. f_equal.
  apply first_by_some in E. destruct E as [Hin' Heq].
  exact (NoDup_map_same column rows row' row Hnd Hin' Hin Heq).
Qed.

Lemma first_by_new (column : PhoneBook.t -> string)
    (rows : list PhoneBook.t) (row : PhoneBook.t) :
  ~ In (column row) (map column rows) ->
  first_by column (column row) (rows ++ [row]) = Some row.
Proof.
  unfold first_by. induction rows as [|r rows IH]; simpl; intros Hno.
  - now rewrite String.eqb_refl.
  - destruct (String.eqb (column r) (column row)) eqn:E.
    + apply String.eqb_eq in E. tauto.
    + apply IH. tauto.
Qed.

Lemma delete_person_new (rows : list PhoneBook.t) (row : PhoneBook.t) :
  ~ In (PhoneBook.id row) (map PhoneBook.id rows) ->
  delete_person row (rows ++ [row]) = rows.
Proof.
  unfold delete_person. intros Hno. rewrite filter_app. simpl.
  rewrite Z.eqb_refl. simpl. rewrite app_nil_r.
  induction rows as [|r rows IH]; simpl in *; [reflexivity|].
  destruct (Z.eqb (PhoneBook.id r) (PhoneBook.id row)) eqn:E.
  - apply Z.eqb_eq in E. tauto.
  - simpl. f_equal. apply IH. tauto.
Qed.

Lemma delete_person_In (rows : list PhoneBook.t) (row r : PhoneBook.t) :
  NoDup (map PhoneBook.id rows) -> In row rows ->
  In r (delete_person row rows) <-> In r rows /\ r <> row.
Proof.
  intros Hnd Hin. unfold delete_person. rewrite filter_In, negb_true_iff.
  split; intros [Hr H]; (split; [exact Hr|]).
  - intros ->. rewrite Z.eqb_refl in H. discriminate.
  - apply Z.eqb_neq. intros Heq. apply H.
    exact (NoDup_map_same PhoneBook.id rows r row Hnd Hr Hin Heq).
Qed.

Lemma delete_person_length (rows : list PhoneBook.t) (row : PhoneBook.t) :
  NoDup (map PhoneBook.id rows) -> In row rows ->
  S (List.length (delete_person row rows)) = List.length rows.
Proof.
  unfold delete_person. induction rows as [|r rows IH]; simpl;
    intros Hnd Hin; [contradiction|].
  inversion Hnd as [|? ? Hr Hl]; subst.
  destruct Hin as [->|Hin].
  - rewrite Z.eqb_refl. simpl. f_equal.
    clear IH Hnd Hl. induction rows as [|x rows IH]; simpl in *;
      [reflexivity|].
    destruct (Z.eqb (PhoneBook.id x) (PhoneBook.id row)) eqn:E.
    + apply Z.eqb_eq in E. tauto.
    + simpl. f_equal. apply IH. tauto.
  - destruct (Z.eqb (PhoneBook.id r) (PhoneBook.id row)) eqn:E.
    + apply Z.eqb_eq in E. exfalso. apply Hr. rewrite E. now apply in_map.
    + simpl. f_equal. now apply IH.
Qed.

Lemma delete_person_gone (column : PhoneBook.t -> string)
    (rows : list PhoneBook.t) (row : PhoneBook.t) :
  NoDup (map column rows) -> In row rows ->
  ~ In (column row) (map column (delete_person row rows)).
Proof.
  intros Hnd Hin H. apply in_map_iff in H. destruct H as [r [Heq Hr]].
  assert (Hr' : In r rows) by (apply filter_In in Hr; tauto).
  pose proof (NoDup_map_same column rows r row Hnd Hr' Hin Heq). subst r.
  exact (delete_person_removes row rows Hr).
Qed.

(** The three ways [delete_by_name] ends. *)
Lemma delete_by_name_cases (now : Z) (full_name : string) (db : DB) :
  (validate_full_name full_name = false
   /\ delete_by_name now full_name db = (db, invalid_input))
  \/ (validate_full_name full_name = true
      /\ first_by PhoneBook.full_name full_name (phonebook db) = None
      /\ delete_by_name now full_name db
         = (db, HTTPException 404 "Person not found in the database"))
  \/ (validate_full_name full_name = true
      /\ exists row,
           first_by PhoneBook.full_name full_name (phonebook db) = Some row
           /\ delete_by_name now full_name db
              = (mkDB (delete_person row (phonebook db))
                   (insert_audit now "delete-by-name"
                      (Some (PhoneBook.full_name row))
                      (Some (PhoneBook.phone_number row)) (audit_log db)),
                 Ok "Person deleted successfully")).
Proof.
  unfold delete_by_name.
  destruct (validate_full_name full_name); cbn [negb]; [|now left].
  right.
  destruct (first_by _ _ _) as [row|]; [right|left]; auto.
  split; [reflexivity|]. now exists row.
Qed.

(** The three ways [delete_by_number] ends. *)
Lemma delete_by_number_cases (now : Z) (phone_number : string) (db : DB) :
  (validate_phone_number phone_number = false
   /\ delete_by_number now phone_number db = (db, invalid_input))
  \/ (validate_phone_number phone_number = true
      /\ first_by PhoneBook.phone_number phone_number (phonebook db) = None
      /\ delete_by_number now phone_number db
         = (db, HTTPException 404 "Person not found in the database"))
  \/ (validate_phone_number phone_number = true
      /\ exists row,
           first_by PhoneBook.phone_number phone_number (phonebook db)
           = Some row
           /\ delete_by_number now phone_number db
              = (mkDB (delete_person row (phonebook db))
                   (insert_audit now "delete-by-number"
                      (Some (PhoneBook.full_name row))
                      (Some (PhoneBook.phone_number row)) (audit_log db)),
                 Ok "Person deleted successfully")).
Proof.
  unfold delete_by_number.
  destruct (validate_phone_number phone_number); cbn [negb]; [|now left].
  right.
  destruct (first_by _ _ _) as [row|]; [right|left]; auto.
  split; [reflexivity|]. now exists row.
Qed.

(** X6: a delete that fails leaves both stores as they were; it answers
    400 exactly when the key is malformed and 404 exactly when the key is
    well-formed and no contact has it. *)
Theorem delete_failure (now : Z) (key : string) (db db' : DB)
    (status_code : Z) (detail : string) :
  (delete_by_name now key db = (db', HTTPException status_code detail) ->
   db' = db
   /\ ((status_code = 400%Z /\ validate_full_name key = false)
       \/ (status_code = 404%Z /\ validate_full_name key = true
           /\ ~ In key (names db))))
  /\ (delete_by_number now key db = (db', HTTPException status_code detail) ->
      db' = db
      /\ ((status_code = 400%Z /\ validate_phone_number key = false)
          \/ (status_code = 404%Z /\ validate_phone_number key = true
              /\ ~ In key (numbers db)))).
Proof.
  split; intros H.
  - destruct (delete_by_name_cases now key db)
      as [[Hv E]|[[Hv [Hnone E]]|[Hv [row [_ E]]]]];
      rewrite E in H; inversion H; subst; clear H.
    + split; [reflexivity|]. left. auto.
    + split; [reflexivity|]. right. apply first_by_none in Hnone. auto.
  - destruct (delete_by_number_cases now key db)
      as [[Hv E]|[[Hv [Hnone E]]|[Hv [row [_ E]]]]];
      rewrite E in H; inversion H; subst; clear H.
    + split; [reflexivity|]. left. auto.
    + split; [reflexivity|]. right. apply first_by_none in Hnone. auto.
Qed.

Lemma delete_failure_witness :
  (delete_by_name 2 "L33t Hacker" one_contact_db
   = (one_contact_db, invalid_input)
   /\ validate_full_name "L33t Hacker" = false)
  /\ (delete_by_number 2 "(703)111-2121" one_contact_db
      = (one_contact_db,
         HTTPException 404 "Person not found in the database")
      /\ ~ In "(703)111-2121" (numbers one_contact_db)).
Proof.
  split.
  - split; [reflexivity|].
    destruct (proj1 (delete_failure 2 "L33t Hacker" one_contact_db
                       one_contact_db 400
                       "Invalid input. Please check your response and try again.")
                eq_refl) as [_ [[_ H]|[H _]]]; [exact H|discriminate H].
  - split; [reflexivity|].
    destruct (proj2 (delete_failure 2 "(703)111-2121" one_contact_db
                       one_contact_db 404
                       "Person not found in the database")
                eq_refl) as [_ [[H _]|[_ [_ H]]]]; [discriminate H|exact H].
Defined.

Lemma add_person_result (now : Z) (person : Person.t) (db db' : DB)
    (body : string) :
  add_person now person db = (db', Ok body) ->
  db' = mkDB (insert_person (Person.full_name person)
                (Person.phone_number person) (phonebook db))
          (insert_audit now "add" (Some (Person.full_name person))
             (Some (Person.phone_number person)) (audit_log db)).
Proof.
  unfold add_person. intros H.
  destruct (validate_full_name _); [|discriminate].
  destruct (validate_phone_number _); [|discriminate].
  cbn [negb] in H. cbv zeta in H.
  destruct (first_by PhoneBook.phone_number _ _); [discriminate|].
  destruct (first_by PhoneBook.full_name _ _); [discriminate|].
  inversion H. reflexivity.
Qed.

(** X7: a successful add followed by deleting the same contact, by its
    name or by its number, gives back the contact store as it was before
    the add; the audit log has grown by the two rows of the add and the
    delete. *)
Theorem add_then_delete (now now' : Z) (person : Person.t) (db db1 : DB)
    (body : string) :
  add_person now person db = (db1, Ok body) ->
  (exists added deleted,
     delete_by_name now' (Person.full_name person) db1
     = (mkDB (phonebook db) (audit_log db ++ [added; deleted]),
        Ok "Person deleted successfully")
     /\ AuditLog.action added = "add"
     /\ AuditLog.action deleted = "delete-by-name")
  /\ (exists added deleted,
        delete_by_number now' (Person.phone_number person) db1
        = (mkDB (phonebook db) (audit_log db ++ [added; deleted]),
           Ok "Person deleted successfully")
        /\ AuditLog.action added = "add"
        /\ AuditLog.action deleted = "delete-by-number").
Proof.
  intros H. pose proof (add_person_result _ _ _ _ _ H) as Hdb1.
  apply add_person_success in H.
  destruct H as [Hname [Hnumber [Hno_number [Hno_name _]]]].
  unfold insert_person in Hdb1.
  set (row := PhoneBook.mk (next_id (map PhoneBook.id (phonebook db)))
                (Person.full_name person) (Person.phone_number person))
    in Hdb1.
  assert (Hdel : delete_person row (phonebook db ++ [row]) = phonebook db).
  { apply delete_person_new. apply next_id_fresh. }
  split.
  - unfold delete_by_name. rewrite Hname. cbn [negb]. subst db1.
    cbn [phonebook audit_log].
    assert (Hf : first_by PhoneBook.full_name (Person.full_name person)
                   (phonebook db ++ [row]) = Some row)
      by exact (first_by_new PhoneBook.full_name (phonebook db) row
                  Hno_name).
    rewrite Hf.
    rewrite Hdel. unfold insert_audit. rewrite <- app_assoc.
    eexists. eexists. split; [reflexivity|]. split; reflexivity.
  - unfold delete_by_number. rewrite Hnumber. cbn [negb]. subst db1.
    cbn [phonebook audit_log].
    assert (Hf : first_by PhoneBook.phone_number
                   (Person.phone_number person) (phonebook db ++ [row])
                 = Some row)
      by exact (first_by_new PhoneBook.phone_number (phonebook db) row
                  Hno_number).
    rewrite Hf.
    rewrite Hdel. unfold insert_audit. rewrite <- app_assoc.
    eexists. eexists. split; [reflexivity|]. split; reflexivity.
Qed.

Lemma add_then_delete_witness :
  add_person 1 john empty_db = (one_contact_db, Ok "Person added successfully")
  /\ phonebook (fst (delete_by_name 2 "John Smith" one_contact_db)) = []
  /\ phonebook (fst (delete_by_number 2 "+1 555-1234" one_contact_db)) = [].
Proof.
  split; [reflexivity|].
  destruct (add_then_delete 1 2 john empty_db one_contact_db
              "Person added successfully" eq_refl)
    as [[a1 [d1 [E1 _]]] [a2 [d2 [E2 _]]]].
  split.
  - change "John Smith" with (Person.full_name john). now rewrite E1.
  - change "+1 555-1234" with (Person.phone_number john). now rewrite E2.
Defined.

(** X8: in a store without duplicate names and numbers, a successful
    delete leaves no contact with that key, so the same delete once more
    answers 404. *)
Theorem delete_twice_not_found (now now' : Z) (key : string) (db db' : DB)
    (body : string) :
  unique db ->
  (delete_by_name now key db = (db', Ok body) ->
   ~ In key (names db')
   /\ delete_by_name now' key db'
      = (db', HTTPException 404 "Person not found in the database"))
  /\ (delete_by_number now key db = (db', Ok body) ->
      ~ In key (numbers db')
      /\ delete_by_number now' key db'
         = (db', HTTPException 404 "Person not found in the database")).
Proof.
  intros [Hnames Hnumbers]. split; intros H.
  - destruct (delete_by_name_cases now key db)
      as [[Hv E]|[[Hv [Hnone E]]|[Hv [row [Hrow E]]]]];
      rewrite E in H; inversion H; subst; clear H.
    apply first_by_some in Hrow. destruct Hrow as [Hin Hkey].
    assert (Hgone : ~ In key (map PhoneBook.full_name
                                (delete_person row (phonebook db)))).
    { rewrite <- Hkey.
      now apply (delete_person_gone PhoneBook.full_name). }
    split; [exact Hgone|].
    unfold delete_by_name. rewrite Hv. cbn [negb phonebook].
    apply first_by_none in Hgone. now rewrite Hgone.
  - destruct (delete_by_number_cases now key db)
      as [[Hv E]|[[Hv [Hnone E]]|[Hv [row [Hrow E]]]]];
      rewrite E in H; inversion H; subst; clear H.
    apply first_by_some in Hrow. destruct Hrow as [Hin Hkey].
    assert (Hgone : ~ In key (map PhoneBook.phone_number
                                (delete_person row (phonebook db)))).
    { rewrite <- Hkey.
      now apply (delete_person_gone PhoneBook.phone_number). }
    split; [exact Hgone|].
    unfold delete_by_number. rewrite Hv. cbn [negb phonebook].
    apply first_by_none in Hgone. now rewrite Hgone.
Qed.

Lemma one_contact_unique : unique one_contact_db.
Proof.
  split; (constructor; [intros []|constructor]).
Qed.

Lemma delete_twice_not_found_witness :
  unique one_contact_db
  /\ (let db' := fst (delete_by_name 2 "John Smith" one_contact_db) in
      delete_by_name 2 "John Smith" one_contact_db
      = (db', Ok "Person deleted successfully")
      /\ delete_by_name 3 "John Smith" db'
         = (db', HTTPException 404 "Person not found in the database"))
  /\ (let db' := fst (delete_by_number 2 "+1 555-1234" one_contact_db) in
      delete_by_number 2 "+1 555-1234" one_contact_db
      = (db', Ok "Person deleted successfully")
      /\ delete_by_number 3 "+1 555-1234" db'
         = (db', HTTPException 404 "Person not found in the database")).
Proof.
  split; [exact one_contact_unique|]. cbv zeta. split.
  - split; [reflexivity|].
    exact (proj2 (proj1 (delete_twice_not_found 2 3 "John Smith"
                           one_contact_db _ "Person deleted successfully"
                           one_contact_unique) eq_refl)).
  - split; [reflexivity|].
    exact (proj2 (proj2 (delete_twice_not_found 2 3 "+1 555-1234"
                           one_contact_db _ "Person deleted successfully"
                           one_contact_unique) eq_refl)).
Defined.

(** X9: in a store without duplicate names and numbers, deleting a
    stored contact by its name and deleting it by its number both succeed
    and leave the same contact store; the two audit rows carry the same
    name and number and differ in the action. *)
Theorem delete_by_name_or_number (now : Z) (row : PhoneBook.t) (db : DB) :
  unique db ->
  In row (phonebook db) ->
  validate_full_name (PhoneBook.full_name row) = true ->
  validate_phone_number (PhoneBook.phone_number row) = true ->
  delete_by_name now (PhoneBook.full_name row) db
  = (mkDB (delete_person row (phonebook db))
       (insert_audit now "delete-by-name" (Some (PhoneBook.full_name row))
          (Some (PhoneBook.phone_number row)) (audit_log db)),
     Ok "Person deleted successfully")
  /\ delete_by_number now (PhoneBook.phone_number row) db
     = (mkDB (delete_person row (phonebook db))
          (insert_audit now "delete-by-number"
             (Some (PhoneBook.full_name row))
             (Some (PhoneBook.phone_number row)) (audit_log db)),
        Ok "Person deleted successfully").
Proof.
  intros [Hnames Hnumbers] Hin Hv1 Hv2. split.
  - unfold delete_by_name. rewrite Hv1. cbn [negb].
    now rewrite (first_by_found PhoneBook.full_name _ row Hnames Hin).
  - unfold delete_by_number. rewrite Hv2. cbn [negb].
    now rewrite (first_by_found PhoneBook.phone_number _ row Hnumbers Hin).
Qed.

Lemma delete_by_name_or_number_witness :
  phonebook (fst (delete_by_name 2 "John Smith" one_contact_db))
  = phonebook (fst (delete_by_number 2 "+1 555-1234" one_contact_db)).
Proof.
  destruct (delete_by_name_or_number 2
              (PhoneBook.mk 1 "John Smith" "+1 555-1234") one_contact_db
              one_contact_unique (or_introl eq_refl) eq_refl eq_refl)
    as [E1 E2].
  cbn [PhoneBook.full_name PhoneBook.phone_number] in E1, E2.
  now rewrite E1, E2.
Defined.

(** X10: nothing malformed gets into the contact store: when every
    stored contact passes both validators, so does every contact stored
    after any sequence of requests. *)
Theorem run_stored_valid (db : DB) :
  stored_valid db -> forall reqs, stored_valid (run reqs db).
Proof.
  intros H reqs. revert db H. unfold run.
  induction reqs as [|[now req] reqs IH]; intros db H; [exact H|].
  simpl. apply IH. clear IH. unfold stored_valid in *.
  destruct req as [|person|full_name|phone_number]; simpl.
  - exact H.
  - destruct (add_person now person db) as [db' [body|c dt]] eqn:E.
    + pose proof (add_person_success _ _ _ _ _ E)
        as [Hv1 [Hv2 [_ [_ Hpb]]]].
      simpl. rewrite Hpb. unfold insert_person.
      apply Forall_app. split; [exact H|]. repeat constructor; assumption.
    + apply add_person_exception in E. destruct E as [_ ->]. exact H.
  - destruct (delete_by_name_cases now full_name db)
      as [[_ E]|[[_ [_ E]]|[_ [row [_ E]]]]]; rewrite E; simpl;
      try exact H.
    unfold delete_person. apply Forall_forall. intros r Hr.
    apply filter_In in Hr. rewrite Forall_forall in H. apply H. tauto.
  - destruct (delete_by_number_cases now phone_number db)
      as [[_ E]|[[_ [_ E]]|[_ [row [_ E]]]]]; rewrite E; simpl;
      try exact H.
    unfold delete_person. apply Forall_forall. intros r Hr.
    apply filter_In in Hr. rewrite Forall_forall in H. apply H. tauto.
Qed.

Lemma run_stored_valid_witness :
  stored_valid empty_db
  /\ stored_valid
       (run [ (1%Z, PostAdd john);
              (2%Z, PostAdd (Person.mk "L33t Hacker" "12345"));
              (3%Z, PostAdd (Person.mk "Bruce Schneier" "123456"));
              (4%Z, PutDeleteByName "Cher");
              (5%Z, PostAdd (Person.mk "Cher" "(703)111-2121")) ] empty_db).
Proof.
  assert (H : stored_valid empty_db) by constructor.
  split; [exact H|]. apply (run_stored_valid empty_db H).
Defined.

(** What one request does to the audit log: nothing, or one row at its
    end. *)
Lemma serve_audit_log (now : Z) (req : request) (db : DB) :
  audit_log (serve now req db) = audit_log db
  \/ exists entry, audit_log (serve now req db) = audit_log db ++ [entry].
Proof.
  destruct req as [|person|full_name|phone_number]; simpl.
  - right. unfold insert_audit. eexists. reflexivity.
  - destruct (add_person now person db) as [db' [body|c dt]] eqn:E.
    + apply add_person_result in E. subst db'. simpl.
      unfold insert_audit. right. eexists. reflexivity.
    + apply add_person_exception in E. destruct E as [_ ->]. auto.
  - destruct (delete_by_name_cases now full_name db)
      as [[_ E]|[[_ [_ E]]|[_ [row [_ E]]]]]; rewrite E; simpl; auto.
    unfold insert_audit. right. eexists. reflexivity.
  - destruct (delete_by_number_cases now phone_number db)
      as [[_ E]|[[_ [_ E]]|[_ [row [_ E]]]]]; rewrite E; simpl; auto.
    unfold insert_audit. right. eexists. reflexivity.
Qed.

(** X11: the audit log is append-only: after any sequence of requests it
    is the log from before followed by at most one new row per request. *)
Theorem run_audit_append_only (reqs : list (Z * request)) (db : DB) :
  exists entries,
    audit_log (run reqs db) = audit_log db ++ entries
    /\ List.length entries <= List.length reqs.
Proof.
  revert db. unfold run.
  induction reqs as [|[now req] reqs IH]; intros db; simpl.
  - exists []. now rewrite app_nil_r.
  - destruct (IH (serve now req db)) as [entries [E Hlen]].
    rewrite E. clear E IH.
    destruct (serve_audit_log now req db) as [->|[entry ->]].
    + exists entries. split; [reflexivity|lia].
    + exists (entry :: entries). rewrite <- app_assoc.
      split; [reflexivity|simpl; lia].
Qed.

(** X13: when primary keys are unique, a successful delete removes the
    contact it found and no other: the contact store is one row shorter
    and holds exactly the other rows. *)
Theorem delete_removes_one (now : Z) (key : string) (db db' : DB)
    (body : string) :
  NoDup (map PhoneBook.id (phonebook db)) ->
  (delete_by_name now key db = (db', Ok body) ->
   exists row,
     In row (phonebook db) /\ PhoneBook.full_name row = key
     /\ S (List.length (phonebook db')) = List.length (phonebook db)
     /\ forall r, In r (phonebook db') <-> In r (phonebook db) /\ r <> row)
  /\ (delete_by_number now key db = (db', Ok body) ->
      exists row,
        In row (phonebook db) /\ PhoneBook.phone_number row = key
        /\ S (List.length (phonebook db')) = List.length (phonebook db)
        /\ forall r,
             In r (phonebook db') <-> In r (phonebook db) /\ r <> row).
Proof.
  intros Hids. split; intros H.
  - destruct (delete_by_name_cases now key db)
      as [[Hv E]|[[Hv [Hnone E]]|[Hv [row [Hrow E]]]]];
      rewrite E in H; inversion H; subst; clear H.
    apply first_by_some in Hrow. destruct Hrow as [Hin Hkey].
    exists row. cbn [phonebook].
    split; [exact Hin|]. split; [exact Hkey|]. split.
    + now apply delete_person_length.
    + intros r. now apply delete_person_In.
  - destruct (delete_by_number_cases now key db)
      as [[Hv E]|[[Hv [Hnone E]]|[Hv [row [Hrow E]]]]];
      rewrite E in H; inversion H; subst; clear H.
    apply first_by_some in Hrow. destruct Hrow as [Hin Hkey].
    exists row. cbn [phonebook].
    split; [exact Hin|]. split; [exact Hkey|]. split.
    + now apply delete_person_length.
    + intros r. now apply delete_person_In.
Qed.

Lemma delete_removes_one_witness :
  NoDup (map PhoneBook.id (phonebook one_contact_db))
  /\ S (List.length
          (phonebook (fst (delete_by_name 2 "John Smith" one_contact_db))))
     = List.length (phonebook one_contact_db)
  /\ S (List.length
          (phonebook (fst (delete_by_number 2 "+1 555-1234" one_contact_db))))
     = List.length (phonebook one_contact_db).
Proof.
  assert (H : NoDup (map PhoneBook.id (phonebook one_contact_db)))
    by (constructor; [intros []|constructor]).
  split; [exact H|]. split.
  - destruct (proj1 (delete_removes_one 2 "John Smith" one_contact_db _
                       "Person deleted successfully" H) eq_refl)
      as [row [_ [_ [Hlen _]]]].
    exact Hlen.
  - destruct (proj2 (delete_removes_one 2 "+1 555-1234" one_contact_db _
                       "Person deleted successfully" H) eq_refl)
      as [row [_ [_ [Hlen _]]]].
    exact Hlen.
Defined.

(** * The validators on arbitrary code points *)

Lemma Str_count_app (p : N -> bool) (u v : list N) :
  Str.count p (u ++ v) = Str.count p u + Str.count p v.
Proof. unfold Str.count. now rewrite filter_app, length_app. Qed.

Section StrDecimals.

Variable decimal : N -> bool.
Variable space : N -> bool.
Variable total : nat.

Lemma Str_rep_exact_decimals (body : Str.matcher) (lb : nat) :
  (forall s k, body s k = true ->
     exists u s', s = u ++ s' /\ k s' = true /\ lb <= Str.count decimal u) ->
  forall n s k, Str.rep_exact body n s k = true ->
    exists u s',
      s = u ++ s' /\ k s' = true /\ n * lb <= Str.count decimal u.
Proof.
  intros Hbody n. induction n as [|n IH]; intros s k H; simpl in H.
  - exists [], s. simpl. repeat split; [exact H|lia].
  - apply Hbody in H. destruct H as [u [t [-> [H Hu]]]].
    apply IH in H. destruct H as [v [s' [-> [Hk Hv]]]].
    exists (u ++ v), s'. rewrite Str_count_app, app_assoc.
    repeat split; [exact Hk|simpl; lia].
Qed.

Lemma Str_rep_upto_consumes (body : Str.matcher) :
  (forall s k, body s k = true ->
     exists u s', s = u ++ s' /\ k s' = true) ->
  forall n s k, Str.rep_upto body n s k = true ->
    exists u s', s = u ++ s' /\ k s' = true.
Proof.
  intros Hbody n. induction n as [|n IH]; intros s k H; simpl in H.
  - now exists [], s.
  - apply orb_true_iff in H. destruct H as [H|H]; [|now exists [], s].
    apply Hbody in H. destruct H as [u [t [-> H]]].
    apply andb_true_iff in H. destruct H as [_ H].
    apply IH in H. destruct H as [v [s' [-> Hk]]].
    exists (u ++ v), s'. now rewrite app_assoc.
Qed.

(** Whatever way the matcher finds through [r], it has consumed at least
    [decimals_at_least r] characters of the class [\d]. *)
Lemma Str_m_decimals (r : re) :
  forall s k, Str.m decimal space total r s k = true ->
    exists u s',
      s = u ++ s' /\ k s' = true
      /\ Str.decimals_at_least r <= Str.count decimal u.
Proof.
  induction r as [| |a|r1 IH1 r2 IH2|r1 IH1 r2 IH2|lo hi r0 IH|r0 IH|r0 IH];
    intros s k H; simpl in H.
  - apply andb_true_iff in H. destruct H as [_ H].
    exists [], s. simpl. repeat split; [exact H|lia].
  - apply andb_true_iff in H. destruct H as [_ H].
    exists [], s. simpl. repeat split; [exact H|lia].
  - destruct s as [|c s]; [discriminate|].
    apply andb_true_iff in H. destruct H as [Hm H].
    exists [c], s. repeat split; [exact H|].
    destruct a; simpl; try lia.
    simpl in Hm. unfold Str.count. simpl. rewrite Hm. simpl. lia.
  - apply IH1 in H. destruct H as [u [t [-> [H Hu]]]].
    apply IH2 in H. destruct H as [v [s' [-> [Hk Hv]]]].
    exists (u ++ v), s'. rewrite Str_count_app, app_assoc.
    repeat split; [exact Hk|simpl; lia].
  - apply orb_true_iff in H.
    destruct H as [H|H]; [apply IH1 in H|apply IH2 in H];
      destruct H as [u [s' [-> [Hk Hu]]]]; exists u, s';
      (repeat split; [exact Hk|simpl; lia]).
  - apply (Str_rep_exact_decimals _ _ IH) in H.
    destruct H as [u [t [-> [H Hu]]]].
    apply Str_rep_upto_consumes in H.
    + destruct H as [v [s' [-> Hk]]].
      exists (u ++ v), s'. rewrite Str_count_app, app_assoc.
      repeat split; [exact Hk|simpl; lia].
    + intros s0 k0 H0. apply IH in H0.
      destruct H0 as [u0 [s0' [E [Hk0 _]]]]. now exists u0, s0'.
  - apply andb_true_iff in H. destruct H as [_ H].
    exists [], s. simpl. repeat split; [exact H|lia].
  - apply andb_true_iff in H. destruct H as [_ H].
    exists [], s. simpl. repeat split; [exact H|lia].
Qed.

End StrDecimals.

(** C9: whatever the classes [\d] and [\s] hold, a phone number that
    [validate_phone_number] accepts has at least 5 characters of the class
    [\d], its digit characters; the empty string and every string with
    fewer than 5 of them are rejected. *)
Theorem validate_phone_number_str_five_digits (decimal space : N -> bool)
    (phone_number : list N) :
  (Str.validate_phone_number decimal space phone_number = true ->
   5 <= Str.count decimal phone_number)
  /\ (Str.count decimal phone_number < 5 ->
      Str.validate_phone_number decimal space phone_number = false)
  /\ Str.validate_phone_number decimal space [] = false.
Proof.
  assert (H5 : Str.validate_phone_number decimal space phone_number = true ->
               5 <= Str.count decimal phone_number).
  { unfold Str.validate_phone_number, Str.re_match. intros H.
    apply Str_m_decimals in H. destruct H as [u [s' [-> [_ H]]]].
    change (Str.decimals_at_least phone_number_pattern) with 5 in H.
    rewrite Str_count_app. lia. }
  split; [exact H5|]. split; [|reflexivity].
  intros Hlt.
  destruct (Str.validate_phone_number decimal space phone_number);
    [|reflexivity].
  specialize (H5 eq_refl). lia.
Qed.

Lemma validate_phone_number_str_five_digits_witness :
  (Str.validate_phone_number decimal_with_arabic_indic (latin1 is_space)
     arabic_indic_12345 = true
   /\ 5 <= Str.count decimal_with_arabic_indic arabic_indic_12345)
  /\ (Str.validate_phone_number decimal_with_arabic_indic (latin1 is_space)
        (codepoints (list_ascii_of_string "12 34 5")) = true
      /\ 5 <= Str.count decimal_with_arabic_indic
                (codepoints (list_ascii_of_string "12 34 5")))
  /\ (Str.count decimal_with_arabic_indic
        (codepoints (list_ascii_of_string "12-34")) < 5
      /\ Str.validate_phone_number decimal_with_arabic_indic
           (latin1 is_space) (codepoints (list_ascii_of_string "12-34"))
         = false).
Proof.
  split; [|split].
  - split; [reflexivity|].
    apply (proj1 (validate_phone_number_str_five_digits
                    decimal_with_arabic_indic (latin1 is_space)
                    arabic_indic_12345)).
    reflexivity.
  - split; [reflexivity|].
    apply (proj1 (validate_phone_number_str_five_digits
                    decimal_with_arabic_indic (latin1 is_space)
                    (codepoints (list_ascii_of_string "12 34 5")))).
    reflexivity.
  - assert (H : Str.count decimal_with_arabic_indic
                  (codepoints (list_ascii_of_string "12-34")) < 5)
      by (vm_compute; lia).
    split; [exact H|].
    apply (proj1 (proj2 (validate_phone_number_str_five_digits
                           decimal_with_arabic_indic (latin1 is_space)
                           (codepoints (list_ascii_of_string "12-34"))))).
    exact H.
Defined.

(** ** Code points 0..255

    On strings of 8-bit characters the matcher on code points and the
    matcher on characters give the same answer, for every pair of classes
    that are ['0'..'9'] and [is_space] below 256. *)

Lemma N_of_ascii_eqb (a b : ascii) :
  N.eqb (N_of_ascii a) (N_of_ascii b) = Ascii.eqb a b.
Proof.
  destruct (Ascii.eqb_spec a b) as [->|Hne].
  - apply N.eqb_refl.
  - apply N.eqb_neq. intros H. apply Hne.
    rewrite <- (ascii_N_embedding a), <- (ascii_N_embedding b). now rewrite H.
Qed.

Lemma N_of_ascii_leb (a b : ascii) :
  N.leb (N_of_ascii a) (N_of_ascii b) = Nat.leb (code a) (code b).
Proof.
  unfold code, nat_of_ascii.
  destruct (N.leb_spec (N_of_ascii a) (N_of_ascii b));
    destruct (Nat.leb_spec (N.to_nat (N_of_ascii a))
                (N.to_nat (N_of_ascii b))); try reflexivity; lia.
Qed.

Lemma latin1_spec (p : ascii -> bool) (c : ascii) :
  latin1 p (N_of_ascii c) = p c.
Proof.
  unfold latin1. rewrite ascii_N_embedding.
  pose proof (N_ascii_bounded c) as H. apply N.ltb_lt in H. now rewrite H.
Qed.

Lemma decimal_with_arabic_indic_spec (c : ascii) :
  decimal_with_arabic_indic (N_of_ascii c) = is_digit c.
Proof.
  unfold decimal_with_arabic_indic. rewrite latin1_spec.
  pose proof (N_ascii_bounded c) as H.
  assert (E : N.leb 1632 (N_of_ascii c) = false) by (apply N.leb_gt; lia).
  rewrite E. simpl. apply orb_false_r.
Qed.

Section Latin1.

Variable decimal : N -> bool.
Variable space : N -> bool.
Hypothesis decimal_latin1 : forall c, decimal (N_of_ascii c) = is_digit c.
Hypothesis space_latin1 : forall c, space (N_of_ascii c) = is_space c.

Lemma Str_atom_matches_latin1 (a : atom) (c : ascii) :
  Str.atom_matches decimal space a (N_of_ascii c) = atom_matches a c.
Proof.
  destruct a as [x| | | |items]; simpl.
  - apply N_of_ascii_eqb.
  - f_equal. change 10%N with (N_of_ascii newline). apply N_of_ascii_eqb.
  - apply decimal_latin1.
  - apply space_latin1.
  - induction items as [|i items IH]; simpl; [reflexivity|].
    rewrite IH. f_equal.
    destruct i as [x|lo hi| |]; simpl.
    + apply N_of_ascii_eqb.
    + unfold in_range. now rewrite !N_of_ascii_leb.
    + apply space_latin1.
    + apply decimal_latin1.
Qed.

Lemma Str_at_eol_latin1 (s : chars) : Str.at_eol (codepoints s) = at_eol s.
Proof.
  destruct s as [|c [|c' s]]; simpl; try reflexivity.
  change 10%N with (N_of_ascii newline). apply N_of_ascii_eqb.
Qed.

Lemma Str_rep_exact_latin1 (body' : Str.matcher) (body : matcher) :
  (forall s k k', (forall t, k' (codepoints t) = k t) ->
                  body' (codepoints s) k' = body s k) ->
  forall n s k k', (forall t, k' (codepoints t) = k t) ->
    Str.rep_exact body' n (codepoints s) k' = rep_exact body n s k.
Proof.
  intros Hbody n. induction n as [|n IH]; intros s k k' Hk; simpl.
  - apply Hk.
  - apply Hbody. intros t. now apply IH.
Qed.

Lemma Str_rep_upto_latin1 (body' : Str.matcher) (body : matcher) :
  (forall s k k', (forall t, k' (codepoints t) = k t) ->
                  body' (codepoints s) k' = body s k) ->
  forall n s k k', (forall t, k' (codepoints t) = k t) ->
    Str.rep_upto body' n (codepoints s) k' = rep_upto body n s k.
Proof.
  intros Hbody n. induction n as [|n IH]; intros s k k' Hk; simpl.
  - apply Hk.
  - rewrite (Hk s). f_equal. apply Hbody. intros t.
    unfold codepoints. rewrite !length_map. f_equal. now apply IH.
Qed.

Lemma Str_m_latin1 (total : nat) (r : re) :
  forall s k k', (forall t, k' (codepoints t) = k t) ->
    Str.m decimal space total r (codepoints s) k' = m total r s k.
Proof.
  induction r as [| |a|r1 IH1 r2 IH2|r1 IH1 r2 IH2|lo hi r0 IH|r0 IH|r0 IH];
    intros s k k' Hk; simpl.
  - rewrite (Hk s). unfold codepoints. now rewrite length_map.
  - now rewrite (Hk s), Str_at_eol_latin1.
  - destruct s as [|c s]; simpl; [reflexivity|].
    now rewrite Str_atom_matches_latin1, (Hk s).
  - apply IH1. intros t. now apply IH2.
  - now rewrite (IH1 s k k' Hk), (IH2 s k k' Hk).
  - apply (Str_rep_exact_latin1 _ _ IH). intros t.
    unfold codepoints at 1. rewrite length_map.
    now apply (Str_rep_upto_latin1 _ _ IH).
  - rewrite (Hk s). f_equal. now apply IH.
  - rewrite (Hk s). f_equal. f_equal. now apply IH.
Qed.

(** Both validators of the 8-bit model are the validators on code points,
    restricted to strings of code points below 256. *)
Lemma validators_latin1 (subject : string) :
  Str.validate_phone_number decimal space
    (codepoints (list_ascii_of_string subject))
  = validate_phone_number subject
  /\ Str.validate_full_name decimal space
       (codepoints (list_ascii_of_string subject))
     = validate_full_name subject.
Proof.
  unfold Str.validate_phone_number, Str.validate_full_name, Str.re_match,
    validate_phone_number, validate_full_name, re_match.
  cbv zeta. unfold codepoints at 1 3. rewrite !length_map.
  split; now apply Str_m_latin1.
Qed.

End Latin1.

(** The classes used in the examples are ['0'..'9'] and [is_space] below
    256. *)
Lemma validators_latin1_example :
  Str.validate_phone_number decimal_with_arabic_indic (latin1 is_space)
    (codepoints (list_ascii_of_string "+1 555-1234"))
  = validate_phone_number "+1 555-1234".
Proof.
  exact (proj1 (validators_latin1 decimal_with_arabic_indic
                  (latin1 is_space) decimal_with_arabic_indic_spec
                  (latin1_spec is_space) "+1 555-1234")).
Qed.
